(** * execute_command: the command-execution strategy layer

    A shallow embedding of the Go packages [executor], [parser] and of the
    part of [main] that builds the strategy, together with the pieces of
    the Go standard library they call ([encoding/base64], the string to
    rune conversion, [unicode/utf16], [strings.Join], [fmt]).

    Conventions.
    - A Go [string] is a sequence of bytes: it is a Rocq [string];
      [[]byte(s)] and [string(b)] are the two list conversions.
    - A [byte] is an [ascii]; its numeric value is [byte_val], and Go's
      conversion [byte(x)] of an unsigned integer is [to_byte] (it keeps
      the low eight bits).
    - Go's [int], [uint], [rune] and [uint16] values are [Z]; no operation
      below leaves the range of its type, so no wrap-around is written.
    - An [error] is identified with its message; [nil] is [None].
    - Calls to the logger of package [utils] produce no value used by the
      program and are left out. *)

From Stdlib Require Import ZArith String Ascii List Lia Bool DecimalString.
From stdpp Require Import base list.
Import ListNotations.

Open Scope string_scope.
Open Scope list_scope.
Open Scope Z_scope.

(** ** Bytes, strings and errors *)

Definition byte := ascii.

Definition byte_val (b : byte) : Z := Z.of_N (N_of_ascii b).

Definition to_byte (x : Z) : byte := ascii_of_N (Z.to_N (x mod 256)).

Definition bytes_of_string (s : string) : list byte := list_ascii_of_string s.

Definition string_of_bytes (b : list byte) : string := string_of_list_ascii b.

Definition error := string.

(** ** Package fmt *)

Module fmt.

(** [fmt.Errorf(format)] for a format without verbs. *)
Definition Errorf0 (format : string) : error := format.

(** [fmt.Errorf(prefix + "%v", err)]: the verb prints [err.Error()]. *)
Definition Errorf_v (prefix : string) (err : error) : error :=
  (prefix ++ err)%string.

(** [fmt.Sprintf(before + "%s" + after, s)]: the verb prints [s] as it is. *)
Definition Sprintf_s (before after s : string) : string :=
  (before ++ s ++ after)%string.

End fmt.

(** ** Package encoding/base64, for [StdEncoding] (padded, not strict) *)

Module base64.

Definition encodeStd : string :=
  "ABCDEFGHIJKLMNOPQRSTUVWXYZabcdefghijklmnopqrstuvwxyz0123456789+/".

Definition StdPadding : byte := "="%char.

(** [enc.encode[i]], the 64-entry table built from the alphabet. *)
Definition encode (i : Z) : byte :=
  nth (Z.to_nat i) (bytes_of_string encodeStd) "000"%char.

Fixpoint index_of (c : byte) (l : list byte) (i : Z) : option Z :=
  match l with
  | [] => None
  | x :: l' => if Ascii.eqb x c then Some i else index_of c l' (i + 1)
  end.

(** [enc.decodeMap[c]]: 256 entries, 0xff except at the alphabet's bytes. *)
Definition decodeMap (c : byte) : Z :=
  match index_of c (bytes_of_string encodeStd) 0 with
  | Some i => i
  | None => 0xff
  end.

(** [Encoding.Encode]: three source bytes at a time, then the remainder of
    one or two bytes with padding. *)
Fixpoint Encode (src : list byte) : list byte :=
  match src with
  | [] => []
  | b0 :: b1 :: b2 :: rest =>
      let val := Z.lor (Z.lor (Z.shiftl (byte_val b0) 16)
                              (Z.shiftl (byte_val b1) 8)) (byte_val b2) in
      encode (Z.land (Z.shiftr val 18) 0x3F)
        :: encode (Z.land (Z.shiftr val 12) 0x3F)
        :: encode (Z.land (Z.shiftr val 6) 0x3F)
        :: encode (Z.land val 0x3F)
        :: Encode rest
  | [b0; b1] =>
      let val := Z.lor (Z.shiftl (byte_val b0) 16)
                       (Z.shiftl (byte_val b1) 8) in
      [encode (Z.land (Z.shiftr val 18) 0x3F);
       encode (Z.land (Z.shiftr val 12) 0x3F);
       encode (Z.land (Z.shiftr val 6) 0x3F);
       StdPadding]
  | [b0] =>
      let val := Z.shiftl (byte_val b0) 16 in
      [encode (Z.land (Z.shiftr val 18) 0x3F);
       encode (Z.land (Z.shiftr val 12) 0x3F);
       StdPadding;
       StdPadding]
  end.

Definition EncodeToString (src : list byte) : string :=
  string_of_bytes (Encode src).

Definition isNewline (c : byte) : bool :=
  Ascii.eqb c "010"%char || Ascii.eqb c "013"%char.

(** The loop [for si < len(src) && (src[si] == '\n' || src[si] == '\r')]:
    the input left and the new value of [si]. *)
Fixpoint skipNewlines (src : list byte) (si : Z) : list byte * Z :=
  match src with
  | c :: rest => if isNewline c then skipNewlines rest (si + 1) else (src, si)
  | [] => ([], si)
  end.

(** The four 6-bit values of a quantum joined into 24 bits; the entries of
    [dbuf] that were not read are 0. *)
Definition quantum (dbuf : list Z) : Z :=
  Z.lor (Z.lor (Z.lor (Z.shiftl (nth 0 dbuf 0) 18)
                      (Z.shiftl (nth 1 dbuf 0) 12))
               (Z.shiftl (nth 2 dbuf 0) 6))
        (nth 3 dbuf 0).

(** [Encoding.Decode], that is [decodeQuantum] repeated until the input is
    used up. [src] is the input from index [si] on and [dbuf] holds the
    values read so far in the current quantum ([j] is its length). The
    result is the decoded bytes or the offset of a [CorruptInputError].
    The word-at-a-time fast paths of [Decode] decode the same bytes and
    are not written separately. *)
Fixpoint decodeLoop (src : list byte) (si : Z) (dbuf : list Z)
  : list byte + Z :=
  match src with
  | [] =>
      match dbuf with
      | [] => inl []
      | _ => inr (si - Z.of_nat (length dbuf))
      end
  | c :: rest =>
      let si := si + 1 in
      let out := decodeMap c in
      if negb (out =? 0xff) then
        let dbuf := dbuf ++ [out] in
        if (length dbuf =? 4)%nat then
          let val := quantum dbuf in
          match decodeLoop rest si [] with
          | inl bs =>
              inl (to_byte (Z.shiftr val 16) :: to_byte (Z.shiftr val 8)
                     :: to_byte (Z.shiftr val 0) :: bs)
          | inr e => inr e
          end
        else decodeLoop rest si dbuf
      else if isNewline c then decodeLoop rest si dbuf
      else if negb (Ascii.eqb c StdPadding) then inr (si - 1)
      else
        let val := quantum dbuf in
        match length dbuf with
        | 0%nat | 1%nat => inr (si - 1)
        | 2%nat =>
            let '(rest1, si1) := skipNewlines rest si in
            match rest1 with
            | [] => inr si1
            | c1 :: rest2 =>
                if negb (Ascii.eqb c1 StdPadding) then inr (si1 - 1)
                else
                  let '(rest3, si3) := skipNewlines rest2 (si1 + 1) in
                  match rest3 with
                  | [] => inl [to_byte (Z.shiftr val 16)]
                  | _ => inr si3
                  end
            end
        | _ =>
            let '(rest3, si3) := skipNewlines rest si in
            match rest3 with
            | [] => inl [to_byte (Z.shiftr val 16); to_byte (Z.shiftr val 8)]
            | _ => inr si3
            end
        end
  end.

(** [CorruptInputError.Error]. *)
Definition CorruptInputError (e : Z) : error :=
  ("illegal base64 data at input byte "
     ++ NilZero.string_of_int (Z.to_int e))%string.

(** [Encoding.DecodeString]; the bytes decoded before an error are not
    kept, as no caller in this program reads them. *)
Definition DecodeString (s : string) : list byte * option error :=
  match decodeLoop (bytes_of_string s) 0 [] with
  | inl bs => (bs, None)
  | inr e => ([], Some (CorruptInputError e))
  end.

End base64.

(** ** The conversion [[]rune(s)] (runtime, [decoderune]) *)

Module utf8.

Definition RuneError : Z := 0xFFFD.
Definition MaxRune : Z := 0x10FFFF.

(** [locb <= b && b <= hicb]: [b] is a continuation byte. *)
Definition cont (b : byte) : bool :=
  (0x80 <=? byte_val b) && (byte_val b <=? 0xBF).

(** The runes of [s]. A byte below 0x80 is its own rune; a well-formed
    sequence of two, three or four bytes gives one rune; any other byte
    gives [RuneError] and the decoding goes on at the next byte. *)
Fixpoint runes (s : list byte) : list Z :=
  match s with
  | [] => []
  | s0 :: s' =>
      let bad := RuneError :: runes s' in
      let c0 := byte_val s0 in
      if c0 <? 0x80 then c0 :: runes s'
      else if (0xC0 <=? c0) && (c0 <? 0xE0) then
        match s' with
        | s1 :: t1 =>
            let r := Z.lor (Z.shiftl (Z.land c0 0x1F) 6)
                           (Z.land (byte_val s1) 0x3F) in
            if cont s1 && (0x7F <? r) then r :: runes t1 else bad
        | _ => bad
        end
      else if (0xE0 <=? c0) && (c0 <? 0xF0) then
        match s' with
        | s1 :: s2 :: t2 =>
            let r := Z.lor (Z.lor (Z.shiftl (Z.land c0 0x0F) 12)
                                  (Z.shiftl (Z.land (byte_val s1) 0x3F) 6))
                           (Z.land (byte_val s2) 0x3F) in
            if cont s1 && cont s2 && (0x7FF <? r)
               && negb ((0xD800 <=? r) && (r <=? 0xDFFF))
            then r :: runes t2 else bad
        | _ => bad
        end
      else if (0xF0 <=? c0) && (c0 <? 0xF8) then
        match s' with
        | s1 :: s2 :: s3 :: t3 =>
            let r := Z.lor (Z.lor (Z.lor
                       (Z.shiftl (Z.land c0 0x07) 18)
                       (Z.shiftl (Z.land (byte_val s1) 0x3F) 12))
                       (Z.shiftl (Z.land (byte_val s2) 0x3F) 6))
                       (Z.land (byte_val s3) 0x3F) in
            if cont s1 && cont s2 && cont s3 && (0xFFFF <? r)
               && (r <=? MaxRune)
            then r :: runes t3 else bad
        | _ => bad
        end
      else bad
  end.

End utf8.

(** ** Package unicode/utf16 *)

Module utf16.

Definition surr1 : Z := 0xd800.
Definition surr2 : Z := 0xdc00.
Definition surr3 : Z := 0xe000.
Definition surrSelf : Z := 0x10000.
Definition replacementChar : Z := 0xFFFD.

(** [EncodeRune], for a rune that needs a surrogate pair. *)
Definition EncodeRune (r : Z) : Z * Z :=
  if (r <? surrSelf) || (utf8.MaxRune <? r)
  then (replacementChar, replacementChar)
  else
    let r := r - surrSelf in
    (surr1 + Z.land (Z.shiftr r 10) 0x3ff, surr2 + Z.land r 0x3ff).

(** [Encode]: the UTF-16 code units ([uint16]) of a sequence of runes. *)
Fixpoint Encode (s : list Z) : list Z :=
  match s with
  | [] => []
  | v :: s' =>
      if ((0 <=? v) && (v <? surr1)) || ((surr3 <=? v) && (v <? surrSelf))
      then v :: Encode s'
      else if (surrSelf <=? v) && (v <=? utf8.MaxRune)
      then let '(r1, r2) := EncodeRune v in r1 :: r2 :: Encode s'
      else replacementChar :: Encode s'
  end.

End utf16.

(** What the library reads from the Unicode tables:
    [strings.Map(unicode.ToLower, s)] and [strings.Map(unicode.ToUpper, s)],
    which [strings.ToLower] and [strings.ToUpper] return for a string that
    has a byte of value 0x80 or more. *)
Class Unicode := {
  Map_ToLower : string -> string;
  Map_ToUpper : string -> string
}.

(** ** Package strings *)

Module strings.

(** The loop of [Join] that appends the separator and the next element. *)
Fixpoint Join_rest (elems : list string) (sep : string) (b : string)
  : string :=
  match elems with
  | [] => b
  | s :: elems' => Join_rest elems' sep (b ++ sep ++ s)%string
  end.

(** [Join]: nothing for no element, the element itself for one, else the
    first element followed by the separator and element for each other. *)
Definition Join (elems : list string) (sep : string) : string :=
  match elems with
  | [] => EmptyString
  | [e] => e
  | e :: elems' => Join_rest elems' sep e
  end.

(** The first loop of [ToLower] and [ToUpper]: all bytes are below
    [utf8.RuneSelf]; some byte is an upper-case (lower-case) letter. *)
Definition isASCII (s : string) : bool :=
  forallb (fun c => byte_val c <? 0x80) (bytes_of_string s).

Definition hasUpper (s : string) : bool :=
  existsb (fun c => (65 <=? byte_val c) && (byte_val c <=? 90))
    (bytes_of_string s).

Definition hasLower (s : string) : bool :=
  existsb (fun c => (97 <=? byte_val c) && (byte_val c <=? 122))
    (bytes_of_string s).

(** [c += 'a' - 'A'] for a byte in ['A'..'Z'], and [c -= 'a' - 'A'] for a
    byte in ['a'..'z']; the other bytes are copied. *)
Definition lower (c : byte) : byte :=
  if (65 <=? byte_val c) && (byte_val c <=? 90)
  then to_byte (byte_val c + 32) else c.

Definition upper (c : byte) : byte :=
  if (97 <=? byte_val c) && (byte_val c <=? 122)
  then to_byte (byte_val c - 32) else c.

Definition ToLower `{unicode : Unicode} (s : string) : string :=
  if isASCII s then
    if negb (hasUpper s) then s
    else string_of_bytes (map lower (bytes_of_string s))
  else Map_ToLower s.

Definition ToUpper `{unicode : Unicode} (s : string) : string :=
  if isASCII s then
    if negb (hasLower s) then s
    else string_of_bytes (map upper (bytes_of_string s))
  else Map_ToUpper s.

End strings.

(** ** Packages os and os/exec, and the host *)

Module os.

Inductive File := Stdin | Stdout | Stderr.

End os.

Module exec.

(** [exec.Cmd]: the program, its argument vector ([Args[0]] is the program
    name) and the three streams, [None] while they are not attached. *)
Record Cmd := {
  Path : string;
  Args : list string;
  Stdin : option os.File;
  Stdout : option os.File;
  Stderr : option os.File
}.

(** [exec.Command(name, arg...)]; the search of [name] in the path of the
    host is left to [Run]. *)
Definition Command (name : string) (arg : list string) : Cmd :=
  {| Path := name; Args := name :: arg;
     Stdin := None; Stdout := None; Stderr := None |}.

End exec.

(** What the program reads from its host: [runtime.GOOS],
    [runtime.GOARCH], and what running a process returns ([nil] for an
    exit status 0, else the error of [Cmd.Run]). *)
Class Host := {
  GOOS : string;
  GOARCH : string;
  Run : exec.Cmd -> option error
}.

(** Computations that start processes: the state is the list of the
    processes started so far, oldest first. *)
Definition Proc (A : Type) : Type := list exec.Cmd -> A * list exec.Cmd.

Definition ret {A} (a : A) : Proc A := fun started => (a, started).

Definition bind {A B} (m : Proc A) (k : A -> Proc B) : Proc B :=
  fun started => let '(a, started') := m started in k a started'.

Notation "'let*' x ':=' m 'in' k" := (bind m (fun x => k))
  (at level 10, x name, m at level 100, k at level 200).

(** [cmd.Run()]. *)
Definition Cmd_Run `{host : Host} (cmd : exec.Cmd) : Proc (option error) :=
  fun started => (Run cmd, started ++ [cmd]).

(** [cmd.Stdout = os.Stdout; cmd.Stderr = os.Stderr; cmd.Stdin = os.Stdin]. *)
Definition attach_streams (cmd : exec.Cmd) : exec.Cmd :=
  {| exec.Path := exec.Path cmd; exec.Args := exec.Args cmd;
     exec.Stdin := Some os.Stdin; exec.Stdout := Some os.Stdout;
     exec.Stderr := Some os.Stderr |}.

(** ** Package executor *)

Module executor.

(** *** executor.go *)

Definition ExecutorType := Z.
Definition Base64Type : ExecutorType := 0.
Definition PlainType : ExecutorType := 1.

Definition ExecutorType_String (et : ExecutorType) : string :=
  if et =? Base64Type then "base64"
  else if et =? PlainType then "plain"
  else "base64".

Record SystemInfo := { OS : string; Arch : string }.

Definition GetSystemInfo `{host : Host} : SystemInfo :=
  {| OS := GOOS; Arch := GOARCH |}.

Definition IsWindows `{host : Host} : bool := String.eqb GOOS "windows".

Definition IsLinux `{host : Host} : bool := String.eqb GOOS "linux".

Definition IsUnix `{host : Host} : bool :=
  String.eqb GOOS "linux" || String.eqb GOOS "darwin"
  || String.eqb GOOS "freebsd" || String.eqb GOOS "openbsd".

Definition ShellType := Z.
Definition AutoShell : ShellType := 0.
Definition CMDShell : ShellType := 1.
Definition PowerShellShell : ShellType := 2.
Definition ShShell : ShellType := 3.

Definition ShellType_String (st : ShellType) : string :=
  if st =? AutoShell then "auto"
  else if st =? CMDShell then "cmd"
  else if st =? PowerShellShell then "powershell"
  else if st =? ShShell then "sh"
  else "auto".

Definition GetShellCommand `{host : Host}
    (command : string) (shellType : ShellType) : exec.Cmd :=
  let shellType :=
    if shellType =? AutoShell
    then (if IsWindows then CMDShell else ShShell)
    else shellType in
  if shellType =? CMDShell then exec.Command "cmd" ["/C"; command]
  else if shellType =? PowerShellShell
  then exec.Command "powershell" ["-Command"; command]
  else if shellType =? ShShell then exec.Command "sh" ["-c"; command]
  else if IsWindows then exec.Command "cmd" ["/C"; command]
  else exec.Command "sh" ["-c"; command].

Definition GetShellCommandForBase64 `{host : Host}
    (encodedCommand : string) (shellType : ShellType) : exec.Cmd :=
  let shellType :=
    if shellType =? AutoShell
    then (if IsWindows then CMDShell else ShShell)
    else shellType in
  if shellType =? CMDShell then exec.Command "cmd" ["/C"; encodedCommand]
  else if shellType =? PowerShellShell
  then exec.Command "powershell" ["-EncodedCommand"; encodedCommand]
  else if shellType =? ShShell then
    let command :=
      fmt.Sprintf_s "echo '" "' | base64 -d | sh" encodedCommand in
    exec.Command "sh" ["-c"; command]
  else if IsWindows then exec.Command "cmd" ["/C"; encodedCommand]
  else
    let command :=
      fmt.Sprintf_s "echo '" "' | base64 -d | sh" encodedCommand in
    exec.Command "sh" ["-c"; command].

Definition GetDefaultShellCommand `{host : Host} (command : string)
  : exec.Cmd :=
  GetShellCommand command AutoShell.

Definition ValidateCommand (command : string) : option error :=
  if String.eqb command EmptyString
  then Some (fmt.Errorf0 "command cannot be empty")
  else None.

(** *** base64_executor.go *)

(** The loop, written twice in the source (in [encodeForPowerShell] and in
    [getDefaultBase64Command]), that stores each code unit at the indices
    [i*2] and [i*2+1] of [utf16Bytes]. Every index is below the length of
    the slice, so the store is never out of range. *)
Fixpoint utf16Bytes_loop (utf16CodePoints : list Z) (i : nat)
    (utf16Bytes : list byte) : list byte :=
  match utf16CodePoints with
  | [] => utf16Bytes
  | codePoint :: rest =>
      let utf16Bytes :=
        <[(i * 2)%nat := to_byte (Z.land codePoint 0xFF)]> utf16Bytes in
      let utf16Bytes :=
        <[(i * 2 + 1)%nat := to_byte (Z.land (Z.shiftr codePoint 8) 0xFF)]>
          utf16Bytes in
      utf16Bytes_loop rest (S i) utf16Bytes
  end.

(** [make([]byte, len(utf16CodePoints)*2)] followed by the loop. *)
Definition utf16Bytes_of (utf16CodePoints : list Z) : list byte :=
  utf16Bytes_loop utf16CodePoints 0
    (replicate (length utf16CodePoints * 2) "000"%char).

Definition getDefaultBase64Command `{host : Host} : string :=
  if IsWindows then
    let command := "ipconfig" in
    let utf16CodePoints :=
      utf16.Encode (utf8.runes (bytes_of_string command)) in
    base64.EncodeToString (utf16Bytes_of utf16CodePoints)
  else base64.EncodeToString (bytes_of_string "ifconfig").

Module Base64Executor.

Record t := { shellType : ShellType; defaultCommand : string }.

Definition SetShellType (be : t) (st : ShellType) : t :=
  {| shellType := st; defaultCommand := defaultCommand be |}.

Definition encodeForPowerShell (be : t) (command : string) : string :=
  let utf16CodePoints :=
    utf16.Encode (utf8.runes (bytes_of_string command)) in
  base64.EncodeToString (utf16Bytes_of utf16CodePoints).

Definition EncodeCommand (be : t) (command : string) : string :=
  if shellType be =? PowerShellShell then encodeForPowerShell be command
  else base64.EncodeToString (bytes_of_string command).

Definition DecodeCommand (be : t) (encodedCommand : string)
  : string * option error :=
  let '(decoded, err) := base64.DecodeString encodedCommand in
  match err with
  | Some err =>
      (EmptyString, Some (fmt.Errorf_v "failed to decode base64: " err))
  | None => (string_of_bytes decoded, None)
  end.

Definition executeCommand `{host : Host} (be : t) (command : string)
  : Proc (option error) :=
  let cmd := GetShellCommand command (shellType be) in
  let cmd := attach_streams cmd in
  let* err := Cmd_Run cmd in
  match err with
  | Some err => ret (Some (fmt.Errorf_v "command execution failed: " err))
  | None => ret None
  end.

Definition executeBase64CommandDirect `{host : Host} (be : t)
    (encodedCommand : string) : Proc (option error) :=
  let cmd := GetShellCommandForBase64 encodedCommand (shellType be) in
  let cmd := attach_streams cmd in
  let* err := Cmd_Run cmd in
  match err with
  | Some err =>
      ret (Some (fmt.Errorf_v "base64 command execution failed: " err))
  | None => ret None
  end.

Definition ExecuteCommand `{host : Host} (be : t) (encodedCommand : string)
  : Proc (option error) :=
  let encodedCommand :=
    if String.eqb encodedCommand EmptyString then defaultCommand be
    else encodedCommand in
  if (shellType be =? PowerShellShell) || (shellType be =? ShShell)
  then executeBase64CommandDirect be encodedCommand
  else
    let '(decoded, err) := DecodeCommand be encodedCommand in
    match err with
    | Some err => ret (Some (fmt.Errorf_v "failed to decode base64: " err))
    | None => executeCommand be decoded
    end.

End Base64Executor.

Definition NewBase64Executor `{host : Host} : Base64Executor.t :=
  let shellType := if IsWindows then PowerShellShell else AutoShell in
  {| Base64Executor.shellType := shellType;
     Base64Executor.defaultCommand := getDefaultBase64Command |}.

Definition NewBase64ExecutorWithShell `{host : Host} (shellType : ShellType)
  : Base64Executor.t :=
  {| Base64Executor.shellType := shellType;
     Base64Executor.defaultCommand := getDefaultBase64Command |}.

(** *** plain_executor.go *)

Definition getDefaultPlainCommand `{host : Host} : string :=
  if IsWindows then "ipconfig" else "ifconfig".

Module PlainExecutor.

Record t := { shellType : ShellType; defaultCommand : string }.

Definition SetShellType (pe : t) (st : ShellType) : t :=
  {| shellType := st; defaultCommand := defaultCommand pe |}.

Definition executeCommand `{host : Host} (pe : t) (command : string)
  : Proc (option error) :=
  let cmd := GetShellCommand command (shellType pe) in
  let cmd := attach_streams cmd in
  let* err := Cmd_Run cmd in
  match err with
  | Some err => ret (Some (fmt.Errorf_v "command execution failed: " err))
  | None => ret None
  end.

Definition ExecuteCommand `{host : Host} (pe : t) (command : string)
  : Proc (option error) :=
  let command :=
    if String.eqb command EmptyString then defaultCommand pe else command in
  executeCommand pe command.

Definition EncodeCommand (pe : t) (command : string) : string := command.

Definition DecodeCommand (pe : t) (command : string)
  : string * option error :=
  (command, None).

End PlainExecutor.

Definition NewPlainExecutor `{host : Host} : PlainExecutor.t :=
  {| PlainExecutor.shellType := AutoShell;
     PlainExecutor.defaultCommand := getDefaultPlainCommand |}.

Definition NewPlainExecutorWithShell `{host : Host} (shellType : ShellType)
  : PlainExecutor.t :=
  {| PlainExecutor.shellType := shellType;
     PlainExecutor.defaultCommand := getDefaultPlainCommand |}.

(** *** The interface [CommandExecutor] and the factory *)

(** A value of the interface is one of its two implementations. *)
Inductive CommandExecutor :=
  | OfBase64 (be : Base64Executor.t)
  | OfPlain (pe : PlainExecutor.t).

Definition ExecuteCommand `{host : Host} (e : CommandExecutor)
    (command : string) : Proc (option error) :=
  match e with
  | OfBase64 be => Base64Executor.ExecuteCommand be command
  | OfPlain pe => PlainExecutor.ExecuteCommand pe command
  end.

Definition EncodeCommand (e : CommandExecutor) (command : string) : string :=
  match e with
  | OfBase64 be => Base64Executor.EncodeCommand be command
  | OfPlain pe => PlainExecutor.EncodeCommand pe command
  end.

Definition DecodeCommand (e : CommandExecutor) (encodedCommand : string)
  : string * option error :=
  match e with
  | OfBase64 be => Base64Executor.DecodeCommand be encodedCommand
  | OfPlain pe => PlainExecutor.DecodeCommand pe encodedCommand
  end.

Definition CreateExecutor `{host : Host} (executorType : ExecutorType)
  : CommandExecutor :=
  if executorType =? Base64Type then OfBase64 NewBase64Executor
  else if executorType =? PlainType then OfPlain NewPlainExecutor
  else OfBase64 NewBase64Executor.

Definition CreateExecutorWithShell `{host : Host}
    (executorType : ExecutorType) (shellType : ShellType)
  : CommandExecutor :=
  if executorType =? Base64Type
  then OfBase64 (NewBase64ExecutorWithShell shellType)
  else if executorType =? PlainType
  then OfPlain (NewPlainExecutorWithShell shellType)
  else OfBase64 (NewBase64ExecutorWithShell shellType).

Definition GetDefaultExecutor `{host : Host} : CommandExecutor :=
  CreateExecutor Base64Type.

Definition GetDefaultExecutorWithShell `{host : Host} (shellType : ShellType)
  : CommandExecutor :=
  CreateExecutorWithShell Base64Type shellType.

(** *** executor.go, the parsers and the validated execution *)

Definition ParseShellType `{unicode : Unicode} (shell : string)
  : ShellType :=
  let s := strings.ToLower shell in
  if String.eqb s "cmd" then CMDShell
  else if String.eqb s "powershell" || String.eqb s "ps"
          || String.eqb s "ps1" then PowerShellShell
  else if String.eqb s "sh" then ShShell
  else if String.eqb s "auto" then AutoShell
  else AutoShell.

Definition ParseExecutorType `{unicode : Unicode} (executor : string)
  : ExecutorType :=
  let s := strings.ToLower executor in
  if String.eqb s "base64" then Base64Type
  else if String.eqb s "plain" then PlainType
  else Base64Type.

(** The value is the error and what [fmt.Printf] wrote. *)
Definition ExecuteCommandWithValidation `{host : Host}
    (command : string) (shellType : ShellType)
  : Proc (option error * list string) :=
  match ValidateCommand command with
  | Some err => ret (Some err, [])
  | None =>
      let cmd := GetShellCommand command shellType in
      let cmd := attach_streams cmd in
      let printed :=
        [fmt.Sprintf_s "Executing command: "
           (String "010"%char EmptyString) command] in
      let* err := Cmd_Run cmd in
      match err with
      | Some err =>
          ret (Some (fmt.Errorf_v "command execution failed: " err), printed)
      | None => ret (None, printed)
      end
  end.

Definition ExecuteCommandWithValidationDefault `{host : Host}
    (command : string) : Proc (option error * list string) :=
  ExecuteCommandWithValidation command AutoShell.

End executor.

(** ** Package utils: the log levels and the line of the logger

    The functions that decide what a call to the logger writes; the calls
    themselves are not recorded in the strategies and in [main]. *)

Module utils.

Definition LogLevel := Z.
Definition DEBUG : LogLevel := 0.
Definition INFO : LogLevel := 1.
Definition WARN : LogLevel := 2.
Definition ERROR : LogLevel := 3.
Definition FATAL : LogLevel := 4.

Definition LogLevel_String (l : LogLevel) : string :=
  if l =? DEBUG then "DEBUG"
  else if l =? INFO then "INFO"
  else if l =? WARN then "WARN"
  else if l =? ERROR then "ERROR"
  else if l =? FATAL then "FATAL"
  else "UNKNOWN".

Record SimpleLogger := { level : LogLevel; output : os.File }.

Definition NewLogger (level : LogLevel) : SimpleLogger :=
  {| level := level; output := os.Stdout |}.

(** The escape character of the colour codes. *)
Definition esc : string := String "027"%char EmptyString.

Definition colorCode (level : LogLevel) : string :=
  if level =? DEBUG then (esc ++ "[36m")%string
  else if level =? INFO then (esc ++ "[32m")%string
  else if level =? WARN then (esc ++ "[33m")%string
  else if level =? ERROR then (esc ++ "[31m")%string
  else if level =? FATAL then (esc ++ "[35m")%string
  else EmptyString.

Definition resetCode : string := (esc ++ "[0m")%string.

(** [logWithModule], given the formatted time and the formatted message:
    the writer and the line written, or [None] when the message is below
    the level of the logger. *)
Definition logWithModule (l : SimpleLogger) (timestamp : string)
    (level : LogLevel) (module message : string)
  : option (os.File * string) :=
  if level <? utils.level l then None
  else
    let logLine :=
      if negb (String.eqb module EmptyString) then
        ("[" ++ timestamp ++ "] " ++ colorCode level
           ++ LogLevel_String level ++ resetCode ++ " [" ++ module ++ "] "
           ++ message ++ String "010"%char EmptyString)%string
      else
        ("[" ++ timestamp ++ "] " ++ colorCode level
           ++ LogLevel_String level ++ resetCode ++ " "
           ++ message ++ String "010"%char EmptyString)%string in
    Some (output l, logLine).

Definition ParseLogLevel `{unicode : Unicode} (level : string) : LogLevel :=
  let s := strings.ToUpper level in
  if String.eqb s "DEBUG" then DEBUG
  else if String.eqb s "INFO" then INFO
  else if String.eqb s "WARN" || String.eqb s "WARNING" then WARN
  else if String.eqb s "ERROR" then ERROR
  else if String.eqb s "FATAL" then FATAL
  else INFO.

End utils.

(** ** Package flag: the values of the flags once [flag.Parse] has run *)

Module flag.

Record Values := {
  log_level : string;
  shell : string;
  executor : string;
  help : bool;
  Args : list string
}.

End flag.

(** ** Package parser *)

Module parser.

Record Config := {
  LogLevel : Z;
  ShellType : executor.ShellType;
  ExecutorType : executor.ExecutorType;
  Help : bool;
  Action : string;
  Args : list string
}.

(** The second [if] of the source, on the pair plain and powershell, has
    an empty body. *)
Definition ValidateExecutorShellCompatibility (c : Config) : option error :=
  if String.eqb (executor.ExecutorType_String (ExecutorType c)) "base64"
  then
    if String.eqb (executor.ShellType_String (ShellType c)) "cmd"
    then Some (fmt.Errorf0
      "base64 executor is not compatible with cmd shell. Use powershell or sh instead")
    else None
  else None.

Definition ValidateAction (c : Config) : option error :=
  if Help c then None
  else
    match ValidateExecutorShellCompatibility c with
    | Some err => Some err
    | None =>
        if String.eqb (Action c) "execute" then None
        else if String.eqb (Action c) "encode" then
          if (length (Args c) <? 2)%nat
          then Some (fmt.Errorf0 "usage: go run main.go encode <command>")
          else None
        else if String.eqb (Action c) "decode" then
          if (length (Args c) <? 2)%nat
          then Some (fmt.Errorf0
                 "usage: go run main.go decode <base64-encoded-command>")
          else None
        else if String.eqb (Action c) "info" then None
        else Some (fmt.Sprintf_s "unknown action: " EmptyString (Action c))
    end.

(** [c.Args[1:]] is [drop 1 (Args c)]. *)
Definition GetCommand (c : Config) : string :=
  if (length (Args c) <? 2)%nat then EmptyString
  else strings.Join (drop 1 (Args c)) " ".

(** [ParseConfig], from the values that package [flag] has parsed. *)
Definition ParseConfig `{unicode : Unicode} (f : flag.Values)
  : option Config * option error :=
  let level := utils.ParseLogLevel (flag.log_level f) in
  let shellType := executor.ParseShellType (flag.shell f) in
  let execType := executor.ParseExecutorType (flag.executor f) in
  let args := flag.Args f in
  if negb (flag.help f) && (length args <? 1)%nat
  then (None, Some (fmt.Errorf0 "no action specified"))
  else
    let action :=
      match args with
      | a :: _ => a
      | [] => EmptyString
      end in
    (Some {| LogLevel := level; ShellType := shellType;
             ExecutorType := execType; Help := flag.help f;
             Action := action; Args := args |}, None).

End parser.

(** ** Package main: the choice of the shell and the call of the factory *)

Module main.

(** The local [shellType] of [main] once the override has run. *)
Definition shellType `{host : Host} (config : parser.Config)
  : executor.ShellType :=
  if (parser.ExecutorType config =? executor.Base64Type)
     && (parser.ShellType config =? executor.AutoShell)
     && executor.IsWindows
  then executor.PowerShellShell
  else parser.ShellType config.

(** The local [cmdExecutor] of [main]. *)
Definition cmdExecutor `{host : Host} (config : parser.Config)
  : executor.CommandExecutor :=
  executor.CreateExecutorWithShell (parser.ExecutorType config)
    (shellType config).

(** What [main] writes with package [fmt]: the text of [PrintUsage], a
    fixed text that is not spelled out, or a formatted line. *)
Inductive Output := Usage | Text (s : string).

(** The exit status, what [main] wrote with [fmt] and the processes it
    started. *)
Record Outcome := {
  exit_code : Z;
  printed : list Output;
  started : list exec.Cmd
}.

(** [%t]. *)
Definition format_bool (b : bool) : string := if b then "true" else "false".

Definition printSystemInfo `{host : Host} : list Output :=
  let sysInfo := executor.GetSystemInfo in
  let nl := String "010"%char EmptyString in
  [Text (fmt.Sprintf_s "System Information:" nl EmptyString);
   Text (fmt.Sprintf_s "  OS: " nl (executor.OS sysInfo));
   Text (fmt.Sprintf_s "  Architecture: " nl (executor.Arch sysInfo));
   Text (fmt.Sprintf_s "  Is Windows: " nl
           (format_bool executor.IsWindows));
   Text (fmt.Sprintf_s "  Is Linux: " nl (format_bool executor.IsLinux));
   Text (fmt.Sprintf_s "  Is Unix-like: " nl (format_bool executor.IsUnix))].

(** [main], from the values of the flags. A nil configuration with a nil
    error, which [ParseConfig] never returns, would make [main] panic at
    its first use of the configuration (status 2). *)
Definition main `{host : Host} `{unicode : Unicode} (f : flag.Values)
  : Outcome :=
  let nl := String "010"%char EmptyString in
  match parser.ParseConfig f with
  | (_, Some err) =>
      {| exit_code := 1;
         printed := [Text (fmt.Sprintf_s "Error: " nl err); Usage];
         started := [] |}
  | (None, None) => {| exit_code := 2; printed := []; started := [] |}
  | (Some config, None) =>
      if parser.Help config
      then {| exit_code := 0; printed := [Usage]; started := [] |}
      else
        match parser.ValidateAction config with
        | Some err =>
            {| exit_code := 1; printed := [Usage]; started := [] |}
        | None =>
            let cmdExecutor := cmdExecutor config in
            let action := parser.Action config in
            if String.eqb action "execute" then
              let command := parser.GetCommand config in
              let '(err, procs) :=
                executor.ExecuteCommand cmdExecutor command [] in
              match err with
              | Some err =>
                  {| exit_code := 1; printed := []; started := procs |}
              | None =>
                  {| exit_code := 0; printed := []; started := procs |}
              end
            else if String.eqb action "encode" then
              let command := parser.GetCommand config in
              let encoded := executor.EncodeCommand cmdExecutor command in
              {| exit_code := 0;
                 printed :=
                   [Text (fmt.Sprintf_s "Base64 encoded command: " nl
                            encoded)];
                 started := [] |}
            else if String.eqb action "decode" then
              let encoded := parser.GetCommand config in
              let '(decoded, err) :=
                executor.DecodeCommand cmdExecutor encoded in
              match err with
              | Some err =>
                  {| exit_code := 1; printed := []; started := [] |}
              | None =>
                  {| exit_code := 0;
                     printed :=
                       [Text (fmt.Sprintf_s "Decoded command: " nl
                                decoded)];
                     started := [] |}
              end
            else if String.eqb action "info" then
              {| exit_code := 0; printed := printSystemInfo;
                 started := [] |}
            else {| exit_code := 0; printed := [Usage]; started := [] |}
        end
  end.

End main.

(** ** Definitions that follow the words of the specification

    They are compared below with the definitions taken from the code. *)

Module spec.

(** The standard base64 alphabet: [A]-[Z], [a]-[z], [0]-[9], [+], [/]. *)
Definition in_alphabet (c : byte) : bool :=
  let v := byte_val c in
  ((65 <=? v) && (v <=? 90)) || ((97 <=? v) && (v <=? 122))
  || ((48 <=? v) && (v <=? 57)) || (v =? 43) || (v =? 47).

(** Valid base64: characters of the alphabet, then no, one or two padding
    characters, a multiple of four characters in all. *)
Definition valid_base64 (s : list byte) : Prop :=
  exists body pad : list byte,
    s = body ++ pad
    /\ Forall (fun c => in_alphabet c = true) body
    /\ (pad = [] \/ pad = ["="%char] \/ pad = ["="%char; "="%char])
    /\ (length s mod 4 = 0)%nat.

(** The input without its carriage returns and line feeds. *)
Definition drop_newlines (s : list byte) : list byte :=
  List.filter (fun c => negb (base64.isNewline c)) s.

(** The UTF-16 code units of a command: those of its runes. *)
Definition utf16_units (command : string) : list Z :=
  utf16.Encode (utf8.runes (bytes_of_string command)).

(** UTF-16 little-endian: two bytes for each code unit, low byte first. *)
Definition utf16le (units : list Z) : list byte :=
  flat_map (fun u => [to_byte (u mod 256); to_byte (u / 256)]) units.

(** A command of ASCII characters only. *)
Definition is_ascii (command : string) : Prop :=
  Forall (fun c => byte_val c < 128) (bytes_of_string command).

(** The two values of [ExecutorType]. *)
Definition executor_type (et : executor.ExecutorType) : Prop :=
  et = executor.Base64Type \/ et = executor.PlainType.

End spec.

(** ** Definitions used in the proofs *)

(** The shape of the input left when [j] characters of the current quantum
    have been read; [spec.valid_base64] is the case [j = 0]. *)
Definition shape (j : nat) (s : list byte) : Prop :=
  exists body pad : list byte,
    s = body ++ pad
    /\ Forall (fun c => spec.in_alphabet c = true) body
    /\ (pad = [] \/ pad = ["="%char] \/ pad = ["="%char; "="%char])
    /\ ((j + length s) mod 4 = 0)%nat.

Definition is_inl {A B} (r : A + B) : bool :=
  match r with inl _ => true | inr _ => false end.

(** ** Hosts used in the examples *)

Definition windows_host : Host :=
  {| GOOS := "windows"; GOARCH := "amd64"; Run := fun _ => None |}.

Definition linux_host : Host :=
  {| GOOS := "linux"; GOARCH := "amd64"; Run := fun _ => None |}.

(** ** Configurations and strategies used in the examples *)

Definition config_of (et : executor.ExecutorType) (st : executor.ShellType)
    (args : list string) : parser.Config :=
  {| parser.LogLevel := 0; parser.ShellType := st;
     parser.ExecutorType := et; parser.Help := false;
     parser.Action := hd EmptyString args; parser.Args := args |}.

Definition base64_sh : executor.Base64Executor.t :=
  @executor.NewBase64ExecutorWithShell linux_host executor.ShShell.

Definition base64_auto : executor.Base64Executor.t :=
  @executor.NewBase64ExecutorWithShell linux_host executor.AutoShell.

Definition plain_auto : executor.PlainExecutor.t :=
  @executor.NewPlainExecutorWithShell linux_host executor.AutoShell.

(** A line feed alone, and ["ZGly"] followed by a line feed. *)
Definition line_feed : string := String "010"%char EmptyString.

Definition ZGly_line_feed : string := ("ZGly" ++ line_feed)%string.

(** ** Flag values used in the statements on [main] *)

(** The configuration that [ParseConfig] returns when it returns one. *)
Definition parsed_config `{unicode : Unicode} (f : flag.Values)
  : parser.Config :=
  {| parser.LogLevel := utils.ParseLogLevel (flag.log_level f);
     parser.ShellType := executor.ParseShellType (flag.shell f);
     parser.ExecutorType := executor.ParseExecutorType (flag.executor f);
     parser.Help := flag.help f;
     parser.Action := hd EmptyString (flag.Args f);
     parser.Args := flag.Args f |}.

(** The same flags with other positional arguments. *)
Definition with_args (f : flag.Values) (args : list string) : flag.Values :=
  {| flag.log_level := flag.log_level f; flag.shell := flag.shell f;
     flag.executor := flag.executor f; flag.help := flag.help f;
     flag.Args := args |}.

(** A table of Unicode in which every string is its own lower and upper
    case, for the examples, which use ASCII names only. *)
Definition ascii_only : Unicode :=
  {| Map_ToLower := fun s => s; Map_ToUpper := fun s => s |}.

Definition flags_of (shell executor : string) (help : bool)
    (args : list string) : flag.Values :=
  {| flag.log_level := "ERROR"; flag.shell := shell;
     flag.executor := executor; flag.help := help; flag.Args := args |}.

(** * Properties *)

(** ** Bytes *)

Lemma byte_val_range (b : byte) : 0 <= byte_val b < 256.
Proof.
  unfold byte_val. pose proof (N_ascii_bounded b) as Hb. lia.
Qed.

Lemma to_byte_val (b : byte) : to_byte (byte_val b) = b.
Proof.
  unfold to_byte. pose proof (byte_val_range b) as Hb.
  rewrite Z.mod_small by lia. unfold byte_val.
  rewrite N2Z.id. apply ascii_N_embedding.
Qed.

Lemma byte_val_to_byte (x : Z) : byte_val (to_byte x) = x mod 256.
Proof.
  unfold byte_val, to_byte.
  assert (Hx : 0 <= x mod 256 < 256) by (apply Z.mod_pos_bound; lia).
  rewrite N_ascii_embedding by lia. lia.
Qed.

Lemma bytes_string_id (s : string) :
  string_of_bytes (bytes_of_string s) = s.
Proof. apply string_of_list_ascii_of_string. Qed.

Lemma string_bytes_id (l : list byte) :
  bytes_of_string (string_of_bytes l) = l.
Proof. apply list_ascii_of_string_of_list_ascii. Qed.

(** ** The tables of base64 *)

Lemma below_64 (P : Z -> bool) :
  forallb P (map Z.of_nat (seq 0 64)) = true ->
  forall i, 0 <= i < 64 -> P i = true.
Proof.
  intros HP i Hi. rewrite forallb_forall in HP. apply HP.
  apply in_map_iff. exists (Z.to_nat i). split; [lia|].
  apply in_seq. lia.
Qed.

Lemma all_bytes (P : byte -> bool) :
  forallb P (map (fun n => ascii_of_nat n) (seq 0 256)) = true ->
  forall c, P c = true.
Proof.
  intros HP c. rewrite forallb_forall in HP. apply HP.
  apply in_map_iff. exists (nat_of_ascii c). split.
  - apply ascii_nat_embedding.
  - apply in_seq. pose proof (nat_ascii_bounded c). lia.
Qed.

Lemma decodeMap_encode (i : Z) :
  0 <= i < 64 -> base64.decodeMap (base64.encode i) = i.
Proof.
  intros Hi. apply Z.eqb_eq. revert i Hi.
  apply (below_64 (fun i => base64.decodeMap (base64.encode i) =? i)).
  vm_compute. reflexivity.
Qed.

Lemma encode_in_alphabet (i : Z) :
  0 <= i < 64 -> spec.in_alphabet (base64.encode i) = true.
Proof.
  apply (below_64 (fun i => spec.in_alphabet (base64.encode i))).
  vm_compute. reflexivity.
Qed.

Lemma decodeMap_alphabet (c : byte) :
  negb (base64.decodeMap c =? 0xff) = spec.in_alphabet c.
Proof.
  apply Bool.eqb_prop. revert c. apply all_bytes. vm_compute. reflexivity.
Qed.

Lemma decodeMap_range (c : byte) :
  spec.in_alphabet c = true -> 0 <= base64.decodeMap c < 64.
Proof.
  assert (H : forall c, implb (spec.in_alphabet c)
            ((0 <=? base64.decodeMap c) && (base64.decodeMap c <? 64)) = true).
  { apply all_bytes. vm_compute. reflexivity. }
  intros Hc. specialize (H c). rewrite Hc in H. simpl in H. lia.
Qed.

Lemma alphabet_plain (c : byte) :
  spec.in_alphabet c = true ->
  base64.isNewline c = false /\ c <> base64.StdPadding /\ c <> "'"%char.
Proof.
  assert (H : forall c, implb (spec.in_alphabet c)
            (negb (base64.isNewline c) && negb (Ascii.eqb c base64.StdPadding)
             && negb (Ascii.eqb c "'"%char)) = true).
  { apply all_bytes. vm_compute. reflexivity. }
  intros Hc. specialize (H c). rewrite Hc in H. simpl in H.
  apply andb_true_iff in H as [H H3]. apply andb_true_iff in H as [H1 H2].
  apply negb_true_iff in H1, H2, H3.
  apply Ascii.eqb_neq in H2, H3. auto.
Qed.

(** ** Bit operations as arithmetic *)

Lemma lor_shiftl_add (a b n : Z) :
  0 <= n -> 0 <= b < 2 ^ n -> Z.lor (Z.shiftl a n) b = a * 2 ^ n + b.
Proof.
  intros Hn Hb. rewrite Z.shiftl_mul_pow2 by lia.
  symmetry. apply Z.add_nocarry_lor.
  apply Z.bits_inj'. intros m Hm.
  rewrite Z.land_spec, Z.bits_0.
  destruct (Z.lt_ge_cases m n) as [Hlt | Hge].
  - rewrite Z.mul_pow2_bits_low by lia. reflexivity.
  - destruct (Z.eq_dec b 0) as [-> | Hb0].
    + rewrite Z.bits_0. apply andb_false_r.
    + rewrite (Z.bits_above_log2 b m); [apply andb_false_r | lia |].
      apply Z.lt_le_trans with n; [|lia]. apply Z.log2_lt_pow2; lia.
Qed.

Lemma land_shiftr_63 (x k : Z) :
  0 <= k -> Z.land (Z.shiftr x k) 0x3F = (x / 2 ^ k) mod 64.
Proof.
  intros Hk. change 0x3F with (Z.ones 6).
  rewrite Z.land_ones by lia. rewrite Z.shiftr_div_pow2 by lia. reflexivity.
Qed.

Lemma land_63 (x : Z) : Z.land x 0x3F = x mod 64.
Proof.
  change 0x3F with (Z.ones 6). rewrite Z.land_ones by lia. reflexivity.
Qed.

Lemma land_255 (x : Z) : Z.land x 0xFF = x mod 256.
Proof.
  change 0xFF with (Z.ones 8). rewrite Z.land_ones by lia. reflexivity.
Qed.

Lemma sextet_range (x : Z) : 0 <= Z.land x 0x3F < 64.
Proof. rewrite land_63. apply Z.mod_pos_bound. lia. Qed.

(** The 24 bits of three bytes. *)
Lemma val3 (b0 b1 b2 : Z) :
  0 <= b0 < 256 -> 0 <= b1 < 256 -> 0 <= b2 < 256 ->
  Z.lor (Z.lor (Z.shiftl b0 16) (Z.shiftl b1 8)) b2
  = b0 * 65536 + b1 * 256 + b2.
Proof.
  intros H0 H1 H2.
  rewrite (Z.shiftl_mul_pow2 b1) by lia.
  rewrite lor_shiftl_add by lia.
  replace (b0 * 2 ^ 16 + b1 * 2 ^ 8) with (Z.shiftl (b0 * 256 + b1) 8)
    by (rewrite Z.shiftl_mul_pow2 by lia; lia).
  rewrite lor_shiftl_add by lia. lia.
Qed.

Lemma val2 (b0 b1 : Z) :
  0 <= b0 < 256 -> 0 <= b1 < 256 ->
  Z.lor (Z.shiftl b0 16) (Z.shiftl b1 8) = b0 * 65536 + b1 * 256.
Proof.
  intros H0 H1. pose proof (val3 b0 b1 0 H0 H1 ltac:(lia)) as H.
  rewrite Z.lor_0_r in H. lia.
Qed.

(** The 24 bits of four 6-bit values. *)
Lemma quantum4 (v0 v1 v2 v3 : Z) :
  0 <= v0 < 64 -> 0 <= v1 < 64 -> 0 <= v2 < 64 -> 0 <= v3 < 64 ->
  base64.quantum [v0; v1; v2; v3]
  = v0 * 262144 + v1 * 4096 + v2 * 64 + v3.
Proof.
  intros H0 H1 H2 H3. unfold base64.quantum. cbn [nth].
  rewrite (Z.shiftl_mul_pow2 v1) by lia.
  rewrite lor_shiftl_add by lia.
  replace (v0 * 2 ^ 18 + v1 * 2 ^ 12) with (Z.shiftl (v0 * 64 + v1) 12)
    by (rewrite Z.shiftl_mul_pow2 by lia; lia).
  rewrite (Z.shiftl_mul_pow2 v2) by lia.
  rewrite lor_shiftl_add by lia.
  replace ((v0 * 64 + v1) * 2 ^ 12 + v2 * 2 ^ 6)
    with (Z.shiftl ((v0 * 64 + v1) * 64 + v2) 6)
    by (rewrite Z.shiftl_mul_pow2 by lia; lia).
  rewrite lor_shiftl_add by lia. lia.
Qed.


(** ** One step of the decoder *)

Lemma decodeLoop_alpha (c : byte) (rest : list byte) (si : Z)
    (dbuf : list Z) :
  spec.in_alphabet c = true ->
  base64.decodeLoop (c :: rest) si dbuf
  = if (length (dbuf ++ [base64.decodeMap c]) =? 4)%nat then
      match base64.decodeLoop rest (si + 1) [] with
      | inl bs =>
          let val := base64.quantum (dbuf ++ [base64.decodeMap c]) in
          inl (to_byte (Z.shiftr val 16) :: to_byte (Z.shiftr val 8)
                 :: to_byte (Z.shiftr val 0) :: bs)
      | inr e => inr e
      end
    else base64.decodeLoop rest (si + 1) (dbuf ++ [base64.decodeMap c]).
Proof.
  intros Hc. cbn [base64.decodeLoop].
  rewrite decodeMap_alphabet, Hc. reflexivity.
Qed.

Lemma decodeLoop_newline (c : byte) (rest : list byte) (si : Z)
    (dbuf : list Z) :
  base64.isNewline c = true ->
  base64.decodeLoop (c :: rest) si dbuf = base64.decodeLoop rest (si + 1) dbuf.
Proof.
  intros Hc. cbn [base64.decodeLoop].
  destruct (spec.in_alphabet c) eqn:Ha.
  - apply alphabet_plain in Ha. destruct Ha as [Ha _]. congruence.
  - rewrite decodeMap_alphabet, Ha, Hc. reflexivity.
Qed.

(** A quantum of four characters of the alphabet gives three bytes. *)
Lemma decodeLoop_quad (c0 c1 c2 c3 : byte) (rest : list byte) (si : Z) :
  spec.in_alphabet c0 = true -> spec.in_alphabet c1 = true ->
  spec.in_alphabet c2 = true -> spec.in_alphabet c3 = true ->
  base64.decodeLoop (c0 :: c1 :: c2 :: c3 :: rest) si []
  = match base64.decodeLoop rest (si + 1 + 1 + 1 + 1) [] with
    | inl bs =>
        let val := base64.quantum [base64.decodeMap c0; base64.decodeMap c1;
                                   base64.decodeMap c2; base64.decodeMap c3] in
        inl (to_byte (Z.shiftr val 16) :: to_byte (Z.shiftr val 8)
               :: to_byte (Z.shiftr val 0) :: bs)
    | inr e => inr e
    end.
Proof.
  intros H0 H1 H2 H3.
  rewrite (decodeLoop_alpha c0) by assumption. cbn [app length Nat.eqb].
  rewrite (decodeLoop_alpha c1) by assumption. cbn [app length Nat.eqb].
  rewrite (decodeLoop_alpha c2) by assumption. cbn [app length Nat.eqb].
  rewrite (decodeLoop_alpha c3) by assumption. cbn [app length Nat.eqb].
  reflexivity.
Qed.

(** ** Decoding what was encoded *)

Ltac to_arith :=
  repeat rewrite land_shiftr_63 by lia;
  repeat rewrite land_63;
  repeat rewrite Z.shiftr_div_pow2 by lia;
  repeat rewrite Z.shiftl_mul_pow2 by lia;
  change (2 ^ 0) with 1; change (2 ^ 6) with 64; change (2 ^ 8) with 256;
  change (2 ^ 12) with 4096; change (2 ^ 16) with 65536;
  change (2 ^ 18) with 262144.

Lemma sextets_join (v : Z) :
  0 <= v < 16777216 ->
  (v / 262144) mod 64 * 262144 + (v / 4096) mod 64 * 4096
  + (v / 64) mod 64 * 64 + v mod 64 = v.
Proof. intros Hv. Z.div_mod_to_equations. lia. Qed.

Lemma bytes_split (b0 b1 b2 : Z) :
  0 <= b0 < 256 -> 0 <= b1 < 256 -> 0 <= b2 < 256 ->
  ((b0 * 65536 + b1 * 256 + b2) / 65536) mod 256 = b0
  /\ ((b0 * 65536 + b1 * 256 + b2) / 256) mod 256 = b1
  /\ ((b0 * 65536 + b1 * 256 + b2) / 1) mod 256 = b2.
Proof. intros H0 H1 H2. repeat split; Z.div_mod_to_equations; lia. Qed.

(** The quantum rebuilt from the four 6-bit values of 24 bits. *)
Lemma quantum_of_sextets (val : Z) :
  0 <= val < 16777216 ->
  base64.quantum
    [Z.land (Z.shiftr val 18) 0x3F; Z.land (Z.shiftr val 12) 0x3F;
     Z.land (Z.shiftr val 6) 0x3F; Z.land val 0x3F] = val.
Proof.
  intros Hv. rewrite quantum4 by apply sextet_range.
  to_arith. apply sextets_join. assumption.
Qed.

Lemma to_byte_of (x : Z) (b : byte) : x mod 256 = byte_val b -> to_byte x = b.
Proof.
  intros H. rewrite <- (to_byte_val b). unfold to_byte. rewrite H.
  pose proof (byte_val_range b). rewrite Z.mod_small by lia. reflexivity.
Qed.

Lemma three_bytes (b0 b1 b2 : byte) :
  let val := Z.lor (Z.lor (Z.shiftl (byte_val b0) 16)
                          (Z.shiftl (byte_val b1) 8)) (byte_val b2) in
  let q := base64.quantum
             [Z.land (Z.shiftr val 18) 0x3F; Z.land (Z.shiftr val 12) 0x3F;
              Z.land (Z.shiftr val 6) 0x3F; Z.land val 0x3F] in
  to_byte (Z.shiftr q 16) = b0 /\ to_byte (Z.shiftr q 8) = b1
  /\ to_byte (Z.shiftr q 0) = b2.
Proof.
  intros val q.
  pose proof (byte_val_range b0) as R0. pose proof (byte_val_range b1) as R1.
  pose proof (byte_val_range b2) as R2.
  assert (Hval : val = byte_val b0 * 65536 + byte_val b1 * 256 + byte_val b2)
    by (apply val3; assumption).
  assert (Hq : q = val) by (apply quantum_of_sextets; lia).
  rewrite Hq, Hval. to_arith.
  destruct (bytes_split _ _ _ R0 R1 R2) as (E0 & E1 & E2).
  repeat split; apply to_byte_of; assumption.
Qed.

Lemma two_bytes (b0 b1 : byte) :
  let val := Z.lor (Z.shiftl (byte_val b0) 16) (Z.shiftl (byte_val b1) 8) in
  let q := base64.quantum
             [Z.land (Z.shiftr val 18) 0x3F; Z.land (Z.shiftr val 12) 0x3F;
              Z.land (Z.shiftr val 6) 0x3F] in
  to_byte (Z.shiftr q 16) = b0 /\ to_byte (Z.shiftr q 8) = b1.
Proof.
  intros val q.
  pose proof (byte_val_range b0) as R0. pose proof (byte_val_range b1) as R1.
  assert (Hval : val = byte_val b0 * 65536 + byte_val b1 * 256 + 0)
    by (unfold val; rewrite val2 by assumption; lia).
  assert (Hq : q = val).
  { rewrite <- (quantum_of_sextets val) by lia.
    replace (Z.land val 0x3F) with 0; [reflexivity|].
    rewrite land_63, Hval. Z.div_mod_to_equations. lia. }
  rewrite Hq, Hval. to_arith.
  destruct (bytes_split _ _ 0 R0 R1 ltac:(lia)) as (E0 & E1 & _).
  split; apply to_byte_of; assumption.
Qed.

Lemma one_byte (b0 : byte) :
  let val := Z.shiftl (byte_val b0) 16 in
  let q := base64.quantum
             [Z.land (Z.shiftr val 18) 0x3F; Z.land (Z.shiftr val 12) 0x3F] in
  to_byte (Z.shiftr q 16) = b0.
Proof.
  intros val q.
  pose proof (byte_val_range b0) as R0.
  assert (Hval : val = byte_val b0 * 65536 + 0 * 256 + 0)
    by (unfold val; rewrite Z.shiftl_mul_pow2 by lia; lia).
  assert (Hq : q = val).
  { rewrite <- (quantum_of_sextets val) by lia.
    replace (Z.land val 0x3F) with 0
      by (rewrite land_63, Hval; Z.div_mod_to_equations; lia).
    replace (Z.land (Z.shiftr val 6) 0x3F) with 0; [reflexivity|].
    rewrite land_shiftr_63 by lia. rewrite Hval.
    change (2 ^ 6) with 64. Z.div_mod_to_equations. lia. }
  rewrite Hq, Hval. to_arith.
  destruct (bytes_split _ 0 0 R0 ltac:(lia) ltac:(lia)) as (E0 & _).
  apply to_byte_of; assumption.
Qed.

Lemma Encode_decodeLoop (n : nat) :
  forall (bs : list byte) (si : Z),
    (length bs <= n)%nat ->
    base64.decodeLoop (base64.Encode bs) si [] = inl bs.
Proof.
  induction n as [n IH] using lt_wf_ind. intros bs si Hn.
  destruct bs as [|b0 [|b1 [|b2 rest]]].
  - reflexivity.
  - cbn [base64.Encode].
    rewrite decodeLoop_alpha by (apply encode_in_alphabet, sextet_range).
    cbn [app length Nat.eqb].
    rewrite decodeLoop_alpha by (apply encode_in_alphabet, sextet_range).
    cbn [app length Nat.eqb].
    rewrite !decodeMap_encode by apply sextet_range.
    cbn. rewrite one_byte. reflexivity.
  - cbn [base64.Encode].
    do 3 (rewrite decodeLoop_alpha by (apply encode_in_alphabet, sextet_range);
          cbn [app length Nat.eqb]).
    rewrite !decodeMap_encode by apply sextet_range.
    cbn. destruct (two_bytes b0 b1) as [E0 E1]. rewrite E0, E1. reflexivity.
  - cbn [base64.Encode].
    rewrite decodeLoop_quad by (apply encode_in_alphabet, sextet_range).
    rewrite (IH (length rest)); [| simpl in Hn; lia | lia].
    rewrite !decodeMap_encode by apply sextet_range.
    destruct (three_bytes b0 b1 b2) as (E0 & E1 & E2).
    cbv zeta. rewrite E0, E1, E2. reflexivity.
Qed.

(** ** Which inputs the decoder accepts *)

Ltac same_mod4 :=
  match goal with
  | Hm : (?a mod 4 = 0)%nat |- (?b mod 4 = 0)%nat =>
      replace b with a by (cbn [length app]; lia); exact Hm
  end.

Lemma shape_valid (s : list byte) : shape 0 s <-> spec.valid_base64 s.
Proof. reflexivity. Qed.

Lemma shape_nil (j : nat) : shape j [] <-> (j mod 4 = 0)%nat.
Proof.
  split.
  - intros (body & pad & _ & _ & _ & Hm). simpl in Hm.
    rewrite Nat.add_0_r in Hm. exact Hm.
  - intros Hm. exists [], []. repeat split; auto.
    simpl. rewrite Nat.add_0_r. exact Hm.
Qed.

Lemma shape_alpha (j : nat) (c : byte) (s : list byte) :
  spec.in_alphabet c = true -> shape j (c :: s) <-> shape (S j) s.
Proof.
  intros Hc. destruct (alphabet_plain c Hc) as (_ & Hpad & _).
  split.
  - intros (body & pad & Hs & Hb & Hp & Hm).
    destruct body as [|b body].
    + simpl in Hs. exfalso. unfold base64.StdPadding in Hpad.
      destruct Hp as [-> | [-> | ->]]; inversion Hs; congruence.
    + inversion Hs; subst. exists body, pad. repeat split; auto.
      * inversion Hb; assumption.
      * same_mod4.
  - intros (body & pad & Hs & Hb & Hp & Hm).
    exists (c :: body), pad. subst s. repeat split; auto.
    same_mod4.
Qed.

Lemma shape_step4 (j : nat) (s : list byte) : shape (4 + j) s <-> shape j s.
Proof.
  assert (E : forall n, ((4 + j + n) mod 4 = (j + n) mod 4)%nat).
  { intros n. replace (4 + j + n)%nat with (j + n + 1 * 4)%nat by lia.
    apply Nat.Div0.mod_add. }
  split; intros (body & pad & Hs & Hb & Hp & Hm); exists body, pad;
    repeat split; auto; rewrite E in *; assumption.
Qed.

Lemma shape_bad (j : nat) (c : byte) (s : list byte) :
  spec.in_alphabet c = false -> c <> base64.StdPadding -> ~ shape j (c :: s).
Proof.
  intros Hc Hpad (body & pad & Hs & Hb & Hp & _).
  destruct body as [|b body].
  - simpl in Hs. unfold base64.StdPadding in Hpad.
    destruct Hp as [-> | [-> | ->]]; inversion Hs; congruence.
  - inversion Hs; subst. inversion Hb; congruence.
Qed.

Lemma shape_pad (j : nat) (s : list byte) :
  shape j (base64.StdPadding :: s)
  <-> (s = [] /\ (S j mod 4 = 0)%nat)
      \/ (s = [base64.StdPadding] /\ (S (S j) mod 4 = 0)%nat).
Proof.
  unfold base64.StdPadding. split.
  - intros (body & pad & Hs & Hb & Hp & Hm).
    destruct body as [|b body].
    + simpl in Hs. destruct Hp as [-> | [-> | ->]]; inversion Hs; subst.
      * left. split; auto. same_mod4.
      * right. split; auto. same_mod4.
    + inversion Hs; subst. inversion Hb; subst. discriminate.
  - intros [[-> Hm] | [-> Hm]].
    + exists [], ["="%char]. repeat split; auto.
      same_mod4.
    + exists [], ["="%char; "="%char]. repeat split; auto.
      same_mod4.
Qed.

Lemma skipNewlines_spec (r : list byte) (si : Z) :
  spec.drop_newlines (fst (base64.skipNewlines r si)) = spec.drop_newlines r
  /\ match fst (base64.skipNewlines r si) with
     | [] => True
     | c :: _ => base64.isNewline c = false
     end.
Proof.
  revert si. induction r as [|c r IH]; intros si.
  - simpl. auto.
  - cbn [base64.skipNewlines]. destruct (base64.isNewline c) eqn:Hc.
    + destruct (IH (si + 1)) as [D N]. split; [|exact N].
      rewrite D. unfold spec.drop_newlines. simpl. rewrite Hc. reflexivity.
    + simpl. auto.
Qed.

Lemma drop_newlines_head (c : byte) (r : list byte) :
  base64.isNewline c = false ->
  spec.drop_newlines (c :: r) = c :: spec.drop_newlines r.
Proof.
  intros Hc. unfold spec.drop_newlines. simpl. rewrite Hc. reflexivity.
Qed.

Lemma is_inl_match {A B C} (r : A + B) (f : A -> C) :
  is_inl (match r with inl a => inl (f a) | inr e => inr e end) = is_inl r.
Proof. destruct r; reflexivity. Qed.

Lemma decodeLoop_accepts (src : list byte) :
  forall (si : Z) (dbuf : list Z),
    (length dbuf < 4)%nat ->
    is_inl (base64.decodeLoop src si dbuf) = true
    <-> shape (length dbuf) (spec.drop_newlines src).
Proof.
  induction src as [|c rest IH]; intros si dbuf Hj.
  - change (spec.drop_newlines []) with (@nil byte). rewrite shape_nil.
    destruct dbuf as [|v dbuf]; cbn [base64.decodeLoop is_inl].
    + split; auto.
    + split; [discriminate|].
      intros Hm. rewrite Nat.mod_small in Hm by lia. discriminate.
  - destruct (spec.in_alphabet c) eqn:Ha.
    + destruct (alphabet_plain c Ha) as (Hn & _ & _).
      rewrite drop_newlines_head by assumption.
      rewrite shape_alpha by assumption.
      rewrite decodeLoop_alpha by assumption.
      rewrite length_app. simpl length.
      destruct (length dbuf + 1 =? 4)%nat eqn:E4.
      * apply Nat.eqb_eq in E4.
        rewrite (is_inl_match (base64.decodeLoop rest (si + 1) [])).
        rewrite (IH (si + 1) []) by (simpl; lia). simpl length.
        replace (S (length dbuf)) with (4 + 0)%nat by lia.
        symmetry. apply shape_step4.
      * apply Nat.eqb_neq in E4.
        rewrite IH by (rewrite length_app; simpl; lia).
        rewrite length_app. simpl length.
        replace (length dbuf + 1)%nat with (S (length dbuf)) by lia.
        reflexivity.
    + destruct (base64.isNewline c) eqn:Hn.
      * rewrite decodeLoop_newline by assumption.
        rewrite IH by assumption.
        unfold spec.drop_newlines. simpl. rewrite Hn. reflexivity.
      * rewrite drop_newlines_head by assumption.
        cbn [base64.decodeLoop]. rewrite decodeMap_alphabet, Ha, Hn.
        cbn [negb].
        destruct (Ascii.eqb c base64.StdPadding) eqn:Hp; cbn [negb].
        -- apply Ascii.eqb_eq in Hp. subst c. rewrite shape_pad.
           destruct (base64.skipNewlines rest (si + 1)) as [rest1 si1] eqn:E1.
           pose proof (skipNewlines_spec rest (si + 1)) as [D1 N1].
           rewrite E1 in D1, N1. simpl in D1, N1.
           destruct dbuf as [|v0 [|v1 [|v2 [|v3 dbuf]]]];
             simpl length in *; try lia.
           ++ simpl. split; [discriminate|]. intros [[_ H]|[_ H]]; discriminate.
           ++ simpl. split; [discriminate|]. intros [[_ H]|[_ H]]; discriminate.
           ++ rewrite <- D1. destruct rest1 as [|c1 rest2].
              ** simpl. split; [discriminate|].
                 intros [[_ H]|[H _]]; discriminate.
              ** rewrite drop_newlines_head by assumption.
                 destruct (Ascii.eqb c1 base64.StdPadding) eqn:Hp1; cbn [negb].
                 --- apply Ascii.eqb_eq in Hp1. subst c1.
                     destruct (base64.skipNewlines rest2 (si1 + 1))
                       as [rest3 si3] eqn:E3.
                     pose proof (skipNewlines_spec rest2 (si1 + 1)) as [D3 N3].
                     rewrite E3 in D3, N3. simpl in D3, N3. rewrite <- D3.
                     destruct rest3 as [|c3 rest4].
                     +++ simpl. split; auto.
                     +++ rewrite drop_newlines_head by assumption. simpl.
                         split; [discriminate|].
                         intros [[H _]|[H _]]; discriminate.
                 --- apply Ascii.eqb_neq in Hp1. simpl.
                     split; [discriminate|].
                     intros [[H _]|[H _]]; [discriminate|].
                     inversion H. congruence.
           ++ rewrite <- D1. destruct rest1 as [|c1 rest2].
              ** simpl. split; auto.
              ** rewrite drop_newlines_head by assumption. simpl.
                 split; [discriminate|].
                 intros [[H _]|[_ H]]; discriminate.
        -- apply Ascii.eqb_neq in Hp. simpl. split; [discriminate|].
           intros Hs. exfalso. eapply shape_bad; eauto.
Qed.

(** ** The byte loop of the UTF-16 encoders *)

Lemma low_byte (u : Z) : to_byte (Z.land u 0xFF) = to_byte (u mod 256).
Proof. rewrite land_255. reflexivity. Qed.

Lemma high_byte (u : Z) :
  to_byte (Z.land (Z.shiftr u 8) 0xFF) = to_byte (u / 256).
Proof.
  rewrite land_255, Z.shiftr_div_pow2 by lia. change (2 ^ 8) with 256.
  unfold to_byte. rewrite Z.mod_mod by lia. reflexivity.
Qed.

Lemma utf16Bytes_loop_spec (units : list Z) :
  forall (i : nat) (done : list byte),
    length done = (i * 2)%nat ->
    executor.utf16Bytes_loop units i
      (done ++ replicate (length units * 2) "000"%char)
    = done ++ spec.utf16le units.
Proof.
  induction units as [|u units IH]; intros i done Hlen.
  - reflexivity.
  - cbn [executor.utf16Bytes_loop length Nat.mul Nat.add replicate].
    rewrite insert_app_r_alt by lia.
    replace (i * 2 - length done)%nat with 0%nat by lia.
    cbn [insert list_insert].
    rewrite insert_app_r_alt by lia.
    replace (i * 2 + 1 - length done)%nat with 1%nat by lia.
    cbn [insert list_insert].
    rewrite low_byte, high_byte.
    set (pair := [to_byte (u mod 256); to_byte (u / 256)]).
    change (spec.utf16le (u :: units)) with (pair ++ spec.utf16le units).
    change (done ++ to_byte (u mod 256) :: to_byte (u / 256)
              :: replicate (length units * 2) "000"%char)
      with (done ++ pair ++ replicate (length units * 2) "000"%char).
    rewrite !app_assoc. apply (IH (S i)).
    rewrite length_app. simpl. lia.
Qed.

Lemma utf16Bytes_of_spec (units : list Z) :
  executor.utf16Bytes_of units = spec.utf16le units.
Proof.
  unfold executor.utf16Bytes_of.
  apply (utf16Bytes_loop_spec units 0 []). reflexivity.
Qed.

Lemma utf16le_length (units : list Z) :
  length (spec.utf16le units) = (2 * length units)%nat.
Proof.
  induction units as [|u units IH]; simpl; [reflexivity|].
  rewrite IH. lia.
Qed.

(** The runes and the code units of an ASCII command are its bytes. *)
Lemma runes_ascii (s : list byte) :
  Forall (fun c => byte_val c < 128) s -> utf8.runes s = map byte_val s.
Proof.
  induction 1 as [|c s Hc _ IH]; [reflexivity|].
  cbn [utf8.runes map]. 
  destruct (byte_val c <? 128) eqn:E; [| lia].
  rewrite IH. reflexivity.
Qed.

Lemma utf16_Encode_ascii (s : list byte) :
  Forall (fun c => byte_val c < 128) s ->
  utf16.Encode (map byte_val s) = map byte_val s.
Proof.
  induction 1 as [|c s Hc _ IH]; [reflexivity|].
  cbn [utf16.Encode map]. pose proof (byte_val_range c) as R.
  unfold utf16.surr1.
  destruct ((0 <=? byte_val c) && (byte_val c <? 55296)) eqn:E.
  - simpl. rewrite IH. reflexivity.
  - apply andb_false_iff in E as [E|E]; lia.
Qed.

Lemma utf16le_ascii (command : string) :
  spec.is_ascii command ->
  spec.utf16le (spec.utf16_units command)
  = flat_map (fun c => [c; "000"%char]) (bytes_of_string command).
Proof.
  unfold spec.is_ascii, spec.utf16_units. intros H.
  rewrite runes_ascii, utf16_Encode_ascii by assumption.
  induction H as [|c s Hc _ IH]; [reflexivity|].
  cbn [map flat_map spec.utf16le app]. f_equal; [|f_equal].
  - pose proof (byte_val_range c). rewrite Z.mod_small by lia.
    apply to_byte_val.
  - pose proof (byte_val_range c). rewrite Z.div_small by lia. reflexivity.
  - exact IH.
Qed.

(** ** Results on the encoder and the decoder *)

Lemma Encode_alphabet (n : nat) :
  forall bs : list byte,
    (length bs <= n)%nat ->
    Forall (fun ch => spec.in_alphabet ch = true \/ ch = base64.StdPadding)
      (base64.Encode bs).
Proof.
  induction n as [n IH] using lt_wf_ind. intros bs Hn.
  assert (A : forall x, spec.in_alphabet (base64.encode (Z.land x 0x3F)) = true
                        \/ base64.encode (Z.land x 0x3F) = base64.StdPadding)
    by (intros x; left; apply encode_in_alphabet, sextet_range).
  destruct bs as [|b0 [|b1 [|b2 rest]]]; cbn [base64.Encode].
  - constructor.
  - repeat (apply Forall_cons_2; [solve [apply A | right; reflexivity] |]).
    constructor.
  - repeat (apply Forall_cons_2; [solve [apply A | right; reflexivity] |]).
    constructor.
  - repeat (apply Forall_cons_2; [solve [apply A] |]).
    apply (IH (length rest)); [simpl in Hn; lia | lia].
Qed.

Lemma DecodeString_EncodeToString (bs : list byte) :
  base64.DecodeString (base64.EncodeToString bs) = (bs, None).
Proof.
  unfold base64.DecodeString, base64.EncodeToString.
  rewrite string_bytes_id.
  rewrite (Encode_decodeLoop (length bs)) by lia. reflexivity.
Qed.

Lemma DecodeString_accepts (s : string) :
  snd (base64.DecodeString s) = None
  <-> spec.valid_base64 (spec.drop_newlines (bytes_of_string s)).
Proof.
  rewrite <- shape_valid.
  rewrite <- (decodeLoop_accepts (bytes_of_string s) 0 []) by (simpl; lia).
  unfold base64.DecodeString.
  destruct (base64.decodeLoop (bytes_of_string s) 0 []); simpl;
    split; congruence.
Qed.

Lemma drop_newlines_none (l : list byte) :
  Forall (fun c => base64.isNewline c = false) l -> spec.drop_newlines l = l.
Proof.
  induction 1 as [|c l Hc _ IH]; [reflexivity|].
  rewrite drop_newlines_head by assumption. rewrite IH. reflexivity.
Qed.

Lemma append_assoc (a b c : string) :
  ((a ++ b) ++ c)%string = (a ++ b ++ c)%string.
Proof.
  induction a as [|x a IH]; simpl; [reflexivity|].
  rewrite IH. reflexivity.
Qed.

(** [strings.Join] is the concatenation with separators. *)
Lemma Join_rest_concat (sep : string) (elems : list string) :
  forall b e : string,
    strings.Join_rest elems sep (b ++ e)%string
    = (b ++ String.concat sep (e :: elems))%string.
Proof.
  induction elems as [|s elems IH]; intros b e.
  - reflexivity.
  - cbn [strings.Join_rest].
    replace ((b ++ e) ++ sep ++ s)%string with ((b ++ e ++ sep) ++ s)%string
      by (rewrite !append_assoc; reflexivity).
    rewrite IH. cbn [String.concat].
    rewrite !append_assoc. reflexivity.
Qed.

Lemma Join_concat (sep : string) (elems : list string) :
  strings.Join elems sep = String.concat sep elems.
Proof.
  destruct elems as [|e [|s elems]]; try reflexivity.
  unfold strings.Join.
  apply (Join_rest_concat sep (s :: elems) EmptyString e).
Qed.

(** * The claims *)

(** ** The compatibility validator *)

(** Outside the two declared executor types the validator follows
    [ExecutorType.String], whose default case is ["base64"]. *)
Lemma validate_by_names (c : parser.Config) :
  parser.ValidateExecutorShellCompatibility c <> None
  <-> executor.ExecutorType_String (parser.ExecutorType c) = "base64"
      /\ executor.ShellType_String (parser.ShellType c) = "cmd".
Proof.
  unfold parser.ValidateExecutorShellCompatibility.
  destruct (String.eqb_spec
              (executor.ExecutorType_String (parser.ExecutorType c))
              "base64") as [E1 | E1];
    destruct (String.eqb_spec
                (executor.ShellType_String (parser.ShellType c))
                "cmd") as [E2 | E2];
    split; try tauto; try congruence; intros _; discriminate.
Qed.

Lemma ShellType_String_cmd (st : executor.ShellType) :
  executor.ShellType_String st = "cmd" <-> st = executor.CMDShell.
Proof.
  unfold executor.ShellType_String, executor.AutoShell, executor.CMDShell,
    executor.PowerShellShell, executor.ShShell.
  destruct (st =? 0) eqn:E0; [split; [discriminate | lia]|].
  destruct (st =? 1) eqn:E1; [split; [lia | reflexivity]|].
  destruct (st =? 2) eqn:E2; [split; [discriminate | lia]|].
  destruct (st =? 3) eqn:E3; split; try discriminate; lia.
Qed.

(** C1. The compatibility validator returns an error if and only if the
    executor type is Base64 and the shell type is CMD: for that pair the
    error is the message that the base64 executor is not compatible with
    the cmd shell, and for every other pair of an executor type (Plain or
    Base64) and a shell type it returns no error. *)
Theorem C1_validate_rejects_exactly_base64_cmd (c : parser.Config) :
  spec.executor_type (parser.ExecutorType c) ->
  (parser.ValidateExecutorShellCompatibility c <> None
   <-> parser.ExecutorType c = executor.Base64Type
       /\ parser.ShellType c = executor.CMDShell)
  /\ (parser.ExecutorType c = executor.Base64Type ->
      parser.ShellType c = executor.CMDShell ->
      parser.ValidateExecutorShellCompatibility c
      = Some "base64 executor is not compatible with cmd shell. Use powershell or sh instead")
  /\ (parser.ExecutorType c = executor.PlainType ->
      parser.ValidateExecutorShellCompatibility c = None)
  /\ (parser.ShellType c <> executor.CMDShell ->
      parser.ValidateExecutorShellCompatibility c = None).
Proof.
  intros Het.
  assert (Hiff : parser.ValidateExecutorShellCompatibility c <> None
                 <-> parser.ExecutorType c = executor.Base64Type
                     /\ parser.ShellType c = executor.CMDShell).
  { rewrite validate_by_names, ShellType_String_cmd.
    destruct Het as [-> | ->]; simpl; split; intros [H1 H2]; split;
      auto; discriminate. }
  split; [exact Hiff|]. split; [|split].
  - intros E1 E2. unfold parser.ValidateExecutorShellCompatibility.
    rewrite E1, E2. reflexivity.
  - intros E1.
    destruct (parser.ValidateExecutorShellCompatibility c) eqn:E;
      [|reflexivity].
    destruct (proj1 Hiff ltac:(discriminate)) as [H _].
    rewrite E1 in H. discriminate.
  - intros E2.
    destruct (parser.ValidateExecutorShellCompatibility c) eqn:E;
      [|reflexivity].
    destruct (proj1 Hiff ltac:(discriminate)) as [_ H]. contradiction.
Qed.

(** ** The codec *)

(** C3. The encode operation of the Base64 strategy gives, when the
    strategy's shell type is PowerShell, the standard base64 encoding of
    the command's UTF-16 little-endian bytes (two bytes for each code
    unit, low byte first), and for every other shell type the standard
    base64 encoding of the command's bytes (its UTF-8 text). *)
Theorem C3_encode_by_shell (be : executor.Base64Executor.t)
    (command : string) :
  executor.Base64Executor.EncodeCommand be command
  = if executor.Base64Executor.shellType be =? executor.PowerShellShell
    then base64.EncodeToString (spec.utf16le (spec.utf16_units command))
    else base64.EncodeToString (bytes_of_string command).
Proof.
  unfold executor.Base64Executor.EncodeCommand,
    executor.Base64Executor.encodeForPowerShell.
  rewrite utf16Bytes_of_spec. reflexivity.
Qed.

(** C4. For every command encoded under the UTF-8 path (a shell type
    other than PowerShell) the output has only characters of the standard
    base64 alphabet and padding, never a single quote, and decoding it,
    with any Base64 strategy, gives the command back without error. *)
Theorem C4_utf8_round_trip (be be' : executor.Base64Executor.t)
    (c : string) :
  executor.Base64Executor.shellType be <> executor.PowerShellShell ->
  let encoded := executor.Base64Executor.EncodeCommand be c in
  Forall (fun ch => spec.in_alphabet ch = true \/ ch = base64.StdPadding)
    (bytes_of_string encoded)
  /\ ~ In "'"%char (bytes_of_string encoded)
  /\ executor.Base64Executor.DecodeCommand be' encoded = (c, None).
Proof.
  intros Hps encoded.
  assert (E : encoded = base64.EncodeToString (bytes_of_string c)).
  { unfold encoded, executor.Base64Executor.EncodeCommand.
    destruct (Z.eqb_spec (executor.Base64Executor.shellType be)
                executor.PowerShellShell); [contradiction | reflexivity]. }
  assert (A : Forall
            (fun ch => spec.in_alphabet ch = true \/ ch = base64.StdPadding)
            (bytes_of_string encoded)).
  { rewrite E. unfold base64.EncodeToString. rewrite string_bytes_id.
    apply (Encode_alphabet (length (bytes_of_string c))). lia. }
  split; [exact A|]. split.
  - intros Hin. rewrite Forall_forall in A.
    apply list_elem_of_In in Hin. specialize (A _ Hin).
    destruct A as [A | A]; [|discriminate].
    vm_compute in A. discriminate.
  - unfold executor.Base64Executor.DecodeCommand.
    rewrite E, DecodeString_EncodeToString, bytes_string_id. reflexivity.
Qed.

(** ** The shell-invocation builders *)

(** C5. For every payload, the plaintext builder gives [cmd /C payload]
    for CMD, [powershell -Command payload] for PowerShell and
    [sh -c payload] for Sh; the base64 builder gives
    [powershell -EncodedCommand payload] for PowerShell,
    [sh -c "echo 'payload' | base64 -d | sh"] for Sh, the payload put as
    it is between the single quotes, and [cmd /C payload] for CMD. *)
Theorem C5_shell_invocations `{host : Host} (payload : string) :
  executor.GetShellCommand payload executor.CMDShell
  = exec.Command "cmd" ["/C"; payload]
  /\ executor.GetShellCommand payload executor.PowerShellShell
     = exec.Command "powershell" ["-Command"; payload]
  /\ executor.GetShellCommand payload executor.ShShell
     = exec.Command "sh" ["-c"; payload]
  /\ executor.GetShellCommandForBase64 payload executor.PowerShellShell
     = exec.Command "powershell" ["-EncodedCommand"; payload]
  /\ executor.GetShellCommandForBase64 payload executor.ShShell
     = exec.Command "sh"
         ["-c"; ("echo '" ++ payload ++ "' | base64 -d | sh")%string]
  /\ executor.GetShellCommandForBase64 payload executor.CMDShell
     = exec.Command "cmd" ["/C"; payload].
Proof. repeat split; reflexivity. Qed.

(** C6. For every payload and for both builders, the invocation built
    for Auto on a Windows host is the one built for CMD there, and the
    invocation built for Auto on another host is the one built for Sh
    there. *)
Theorem C6_auto_resolution `{host : Host} (payload : string) :
  (executor.IsWindows = true ->
   executor.GetShellCommand payload executor.AutoShell
   = executor.GetShellCommand payload executor.CMDShell
   /\ executor.GetShellCommandForBase64 payload executor.AutoShell
      = executor.GetShellCommandForBase64 payload executor.CMDShell)
  /\ (executor.IsWindows = false ->
      executor.GetShellCommand payload executor.AutoShell
      = executor.GetShellCommand payload executor.ShShell
      /\ executor.GetShellCommandForBase64 payload executor.AutoShell
         = executor.GetShellCommandForBase64 payload executor.ShShell).
Proof.
  unfold executor.GetShellCommand, executor.GetShellCommandForBase64.
  split; intros ->; split; reflexivity.
Qed.

(** C7. Decoding reads the input as standard-alphabet base64 and returns
    the decoded bytes as text. It returns no error exactly when the
    input, once its carriage returns and line feeds are dropped, is valid
    base64; so for an input without line breaks it returns an error
    exactly when the input is not valid base64. The result does not
    depend on the strategy's shell type, and on an error the text
    returned is empty. *)
Theorem C7_decode_accepts_valid_modulo_newlines
    (be be' : executor.Base64Executor.t) (s : string) :
  (snd (executor.Base64Executor.DecodeCommand be s) = None
   <-> spec.valid_base64 (spec.drop_newlines (bytes_of_string s)))
  /\ (Forall (fun c => base64.isNewline c = false) (bytes_of_string s) ->
      (snd (executor.Base64Executor.DecodeCommand be s) <> None
       <-> ~ spec.valid_base64 (bytes_of_string s)))
  /\ (snd (executor.Base64Executor.DecodeCommand be s) = None ->
      executor.Base64Executor.DecodeCommand be s
      = (string_of_bytes (fst (base64.DecodeString s)), None))
  /\ (snd (executor.Base64Executor.DecodeCommand be s) <> None ->
      fst (executor.Base64Executor.DecodeCommand be s) = EmptyString)
  /\ executor.Base64Executor.DecodeCommand be s
     = executor.Base64Executor.DecodeCommand be' s.
Proof.
  assert (Hsnd : snd (executor.Base64Executor.DecodeCommand be s) = None
                 <-> snd (base64.DecodeString s) = None).
  { unfold executor.Base64Executor.DecodeCommand.
    destruct (base64.DecodeString s) as [decoded [err|]]; simpl;
      split; congruence. }
  assert (Hacc : snd (executor.Base64Executor.DecodeCommand be s) = None
                 <-> spec.valid_base64
                       (spec.drop_newlines (bytes_of_string s)))
    by (rewrite Hsnd; apply DecodeString_accepts).
  split; [exact Hacc|]. split; [|split; [|split]].
  - intros Hnl. rewrite drop_newlines_none in Hacc by assumption.
    rewrite <- Hacc.
    destruct (snd (executor.Base64Executor.DecodeCommand be s));
      split; intros H; congruence.
  - unfold executor.Base64Executor.DecodeCommand.
    destruct (base64.DecodeString s) as [decoded [err|]]; simpl;
      [discriminate | reflexivity].
  - unfold executor.Base64Executor.DecodeCommand.
    destruct (base64.DecodeString s) as [decoded [err|]]; simpl;
      [reflexivity | congruence].
  - reflexivity.
Qed.

(** ** The Base64 strategy *)

(** C2. For a non-empty encoded command the Base64 strategy dispatches on
    its shell type. For PowerShell and Sh it runs the invocation that the
    base64 builder makes of the still-encoded payload, whether or not the
    payload can be decoded. For any other shell type it decodes first: on a
    decoding error it returns an error and starts no process; on success
    it runs the plaintext invocation of the decoded text with the streams
    and the error of the Plain strategy, which is what the Plain
    strategy's execute does with that text when the text is not empty. *)
Theorem C2_base64_execute_dispatch `{host : Host}
    (be : executor.Base64Executor.t) (encodedCommand : string)
    (started : list exec.Cmd) :
  encodedCommand <> EmptyString ->
  let st := executor.Base64Executor.shellType be in
  (st = executor.PowerShellShell \/ st = executor.ShShell ->
   let cmd :=
     attach_streams (executor.GetShellCommandForBase64 encodedCommand st) in
   executor.Base64Executor.ExecuteCommand be encodedCommand started
   = (match Run cmd with
      | Some err => Some ("base64 command execution failed: " ++ err)%string
      | None => None
      end, started ++ [cmd]))
  /\ (st <> executor.PowerShellShell -> st <> executor.ShShell ->
      match base64.DecodeString encodedCommand with
      | (_, Some err) =>
          executor.Base64Executor.ExecuteCommand be encodedCommand started
          = (Some ("failed to decode base64: failed to decode base64: "
                     ++ err)%string, started)
      | (decoded, None) =>
          let pe := executor.NewPlainExecutorWithShell st in
          let text := string_of_bytes decoded in
          executor.Base64Executor.ExecuteCommand be encodedCommand started
          = executor.PlainExecutor.executeCommand pe text started
          /\ (text <> EmptyString ->
              executor.Base64Executor.ExecuteCommand be encodedCommand started
              = executor.PlainExecutor.ExecuteCommand pe text started)
      end).
Proof.
  intros Hne st.
  assert (E0 : String.eqb encodedCommand EmptyString = false)
    by (apply String.eqb_neq; assumption).
  split.
  - intros Hst cmd. unfold executor.Base64Executor.ExecuteCommand.
    rewrite E0.
    assert (Hb : (executor.Base64Executor.shellType be
                    =? executor.PowerShellShell)
                 || (executor.Base64Executor.shellType be
                       =? executor.ShShell) = true).
    { fold st. destruct Hst as [-> | ->]; reflexivity. }
    rewrite Hb.
    unfold executor.Base64Executor.executeBase64CommandDirect, bind, Cmd_Run,
      ret, fmt.Errorf_v.
    fold st. fold cmd. destruct (Run cmd); reflexivity.
  - intros Hps Hsh. unfold executor.Base64Executor.ExecuteCommand.
    rewrite E0.
    assert (Hb : (executor.Base64Executor.shellType be
                    =? executor.PowerShellShell)
                 || (executor.Base64Executor.shellType be
                       =? executor.ShShell) = false).
    { fold st. apply orb_false_iff. split; apply Z.eqb_neq; assumption. }
    rewrite Hb. unfold executor.Base64Executor.DecodeCommand.
    destruct (base64.DecodeString encodedCommand) as [decoded [err|]].
    + reflexivity.
    + cbv zeta. split; [reflexivity|].
      intros Htext. unfold executor.PlainExecutor.ExecuteCommand.
      apply String.eqb_neq in Htext. rewrite Htext. reflexivity.
Qed.

(** With shell Auto on a Linux host the payload is decoded by the
    strategy and the plaintext is run by [sh]. *)
Example base64_auto_linux_decodes :
  @executor.Base64Executor.ExecuteCommand linux_host base64_auto "ZGly" []
  = (None, [attach_streams (exec.Command "sh" ["-c"; "dir"])]).
Proof. vm_compute. reflexivity. Qed.

(** The default command depends on the host only. *)
Lemma default_base64_by_host `{host : Host} (st : executor.ShellType) :
  executor.Base64Executor.defaultCommand
    (executor.NewBase64ExecutorWithShell st)
  = if executor.IsWindows
    then base64.EncodeToString
           (spec.utf16le (spec.utf16_units "ipconfig"))
    else base64.EncodeToString (bytes_of_string "ifconfig").
Proof.
  unfold executor.NewBase64ExecutorWithShell, executor.getDefaultBase64Command.
  simpl. rewrite utf16Bytes_of_spec. reflexivity.
Qed.

(** An empty command is replaced by the stored default. *)
Lemma base64_execute_empty `{host : Host} (be : executor.Base64Executor.t) :
  executor.Base64Executor.ExecuteCommand be EmptyString
  = executor.Base64Executor.ExecuteCommand be
      (executor.Base64Executor.defaultCommand be).
Proof.
  unfold executor.Base64Executor.ExecuteCommand.
  destruct (String.eqb_spec (executor.Base64Executor.defaultCommand be)
              EmptyString)
    as [-> | _]; reflexivity.
Qed.

Lemma plain_execute_empty `{host : Host} (pe : executor.PlainExecutor.t) :
  executor.PlainExecutor.ExecuteCommand pe EmptyString
  = executor.PlainExecutor.ExecuteCommand pe
      (executor.PlainExecutor.defaultCommand pe).
Proof.
  unfold executor.PlainExecutor.ExecuteCommand.
  destruct (String.eqb_spec (executor.PlainExecutor.defaultCommand pe)
              EmptyString)
    as [-> | _]; reflexivity.
Qed.

(** C8, at two configurations that pass the validator. On a Linux host
    with shell PowerShell the stored default is the base64 of the UTF-8
    bytes of ["ifconfig"], while the strategy's own encoding of
    ["ifconfig"] is that of its UTF-16LE bytes. On a Windows host with
    shell Sh the stored default is the base64 of the UTF-16LE bytes of
    ["ipconfig"], while the strategy's own encoding of ["ipconfig"] is that
    of its UTF-8 bytes. *)
Theorem C8_default_ignores_shell :
  (let be := @executor.NewBase64ExecutorWithShell linux_host
               executor.PowerShellShell in
   executor.Base64Executor.defaultCommand be = "aWZjb25maWc="
   /\ executor.Base64Executor.EncodeCommand be "ifconfig"
      = "aQBmAGMAbwBuAGYAaQBnAA==")
  /\ (let be := @executor.NewBase64ExecutorWithShell windows_host
                  executor.ShShell in
      executor.Base64Executor.defaultCommand be = "aQBwAGMAbwBuAGYAaQBnAA=="
      /\ executor.Base64Executor.EncodeCommand be "ipconfig" = "aXBjb25maWc=").
Proof. repeat split; vm_compute; reflexivity. Qed.

(** ** The factory and the override of [main] *)

(** C9. With executor type Base64, shell type Auto and a Windows host,
    [main] passes PowerShell to the factory, so the strategy built is a
    Base64 strategy with shell type PowerShell, whose invocations run
    [powershell] and not [cmd]; the factory itself keeps the executor and
    the shell type it is given. *)
Theorem C9_windows_auto_override `{host : Host} (config : parser.Config) :
  executor.IsWindows = true ->
  parser.ExecutorType config = executor.Base64Type ->
  parser.ShellType config = executor.AutoShell ->
  main.shellType config = executor.PowerShellShell
  /\ main.cmdExecutor config
     = executor.OfBase64
         {| executor.Base64Executor.shellType := executor.PowerShellShell;
            executor.Base64Executor.defaultCommand :=
              executor.getDefaultBase64Command |}
  /\ (forall encodedCommand : string,
        executor.GetShellCommandForBase64 encodedCommand
          (main.shellType config)
        = exec.Command "powershell" ["-EncodedCommand"; encodedCommand])
  /\ (forall st : executor.ShellType,
        executor.CreateExecutorWithShell executor.Base64Type st
        = executor.OfBase64
            {| executor.Base64Executor.shellType := st;
               executor.Base64Executor.defaultCommand :=
                 executor.getDefaultBase64Command |})
  /\ (forall st : executor.ShellType,
        executor.CreateExecutorWithShell executor.PlainType st
        = executor.OfPlain
            {| executor.PlainExecutor.shellType := st;
               executor.PlainExecutor.defaultCommand :=
                 executor.getDefaultPlainCommand |}).
Proof.
  intros Hw Het Hst.
  assert (E : main.shellType config = executor.PowerShellShell).
  { unfold main.shellType. rewrite Het, Hst, Hw. reflexivity. }
  split; [exact E|]. split; [|split; [|split]].
  - unfold main.cmdExecutor. rewrite E, Het. reflexivity.
  - intros encodedCommand. rewrite E. reflexivity.
  - reflexivity.
  - reflexivity.
Qed.

(** Without the three conditions [main] passes the configured shell. *)
Lemma main_shellType_otherwise `{host : Host} (config : parser.Config) :
  executor.IsWindows = false
  \/ parser.ExecutorType config <> executor.Base64Type
  \/ parser.ShellType config <> executor.AutoShell ->
  main.shellType config = parser.ShellType config.
Proof.
  unfold main.shellType. intros [-> | [H | H]].
  - rewrite andb_false_r. reflexivity.
  - apply Z.eqb_neq in H. rewrite H. reflexivity.
  - apply Z.eqb_neq in H. rewrite H, andb_false_r. reflexivity.
Qed.

(** ** The command string *)

(** C10. The command handed to the strategy is empty when the
    configuration has fewer than two positional arguments, and an empty
    command makes either strategy run its default command; otherwise it
    is the arguments after the action joined with one space between two
    arguments. *)
Theorem C10_GetCommand (c : parser.Config) :
  ((length (parser.Args c) < 2)%nat -> parser.GetCommand c = EmptyString)
  /\ ((2 <= length (parser.Args c))%nat ->
      parser.GetCommand c = String.concat " " (drop 1 (parser.Args c)))
  /\ (forall (host : Host) (be : executor.Base64Executor.t),
        executor.ExecuteCommand (executor.OfBase64 be) EmptyString
        = executor.ExecuteCommand (executor.OfBase64 be)
            (executor.Base64Executor.defaultCommand be))
  /\ (forall (host : Host) (pe : executor.PlainExecutor.t),
        executor.ExecuteCommand (executor.OfPlain pe) EmptyString
        = executor.ExecuteCommand (executor.OfPlain pe)
            (executor.PlainExecutor.defaultCommand pe)).
Proof.
  unfold parser.GetCommand. split; [|split; [|split]].
  - intros H. apply Nat.ltb_lt in H. rewrite H. reflexivity.
  - intros H. destruct (Nat.ltb_spec (length (parser.Args c)) 2); [lia|].
    apply Join_concat.
  - intros host be. apply base64_execute_empty.
  - intros host pe. apply plain_execute_empty.
Qed.

(** ** The claims at concrete inputs *)

Lemma C1_witness :
  spec.executor_type
    (parser.ExecutorType
       (config_of executor.Base64Type executor.CMDShell ["execute"]))
  /\ parser.ValidateExecutorShellCompatibility
       (config_of executor.Base64Type executor.CMDShell ["execute"])
     = Some "base64 executor is not compatible with cmd shell. Use powershell or sh instead".
Proof.
  split; [left; reflexivity|].
  apply (C1_validate_rejects_exactly_base64_cmd
           (config_of executor.Base64Type executor.CMDShell ["execute"])).
  - left; reflexivity.
  - reflexivity.
  - reflexivity.
Defined.

(** The claim C2 read with the Plain strategy's execute operation fails
    for an encoded command that is a line feed: it is not empty, it
    decodes without error to the empty text, and the Base64 strategy with
    shell Auto then runs [sh -c] with an empty command on a Linux host,
    where the Plain strategy given the empty text runs its default
    [sh -c "ifconfig"]. *)
Lemma C2_counterexample :
  line_feed <> EmptyString
  /\ executor.Base64Executor.DecodeCommand base64_auto line_feed
     = (EmptyString, None)
  /\ snd (@executor.Base64Executor.ExecuteCommand linux_host base64_auto
            line_feed [])
     = [attach_streams (exec.Command "sh" ["-c"; EmptyString])]
  /\ snd (@executor.PlainExecutor.ExecuteCommand linux_host plain_auto
            EmptyString [])
     = [attach_streams (exec.Command "sh" ["-c"; "ifconfig"])]
  /\ @executor.Base64Executor.ExecuteCommand linux_host base64_auto
       line_feed []
     <> @executor.PlainExecutor.ExecuteCommand linux_host plain_auto
          EmptyString [].
Proof.
  split; [discriminate|].
  split; [vm_compute; reflexivity|].
  split; [vm_compute; reflexivity|].
  split; [vm_compute; reflexivity|].
  vm_compute. discriminate.
Qed.

Lemma C2_witness :
  "ZGly" <> EmptyString
  /\ @executor.Base64Executor.ExecuteCommand linux_host base64_sh "ZGly" []
     = (None,
        [attach_streams
           (exec.Command "sh" ["-c"; "echo 'ZGly' | base64 -d | sh"])]).
Proof.
  assert (H : "ZGly" <> EmptyString) by discriminate.
  split; [exact H|].
  apply (proj1 (@C2_base64_execute_dispatch linux_host base64_sh "ZGly" [] H)).
  right; reflexivity.
Defined.

Lemma C4_witness :
  executor.Base64Executor.shellType base64_sh <> executor.PowerShellShell
  /\ executor.Base64Executor.EncodeCommand base64_sh "dir" = "ZGly"
  /\ executor.Base64Executor.DecodeCommand base64_auto
       (executor.Base64Executor.EncodeCommand base64_sh "dir")
     = ("dir", None).
Proof.
  assert (H : executor.Base64Executor.shellType base64_sh
              <> executor.PowerShellShell) by discriminate.
  split; [exact H|]. split; [reflexivity|].
  apply (C4_utf8_round_trip base64_sh base64_auto "dir" H).
Defined.

Lemma C6_witness :
  (@executor.IsWindows windows_host = true
   /\ @executor.GetShellCommand windows_host "dir" executor.AutoShell
      = exec.Command "cmd" ["/C"; "dir"])
  /\ (@executor.IsWindows linux_host = false
      /\ @executor.GetShellCommandForBase64 linux_host "ZGly"
           executor.AutoShell
         = exec.Command "sh" ["-c"; "echo 'ZGly' | base64 -d | sh"]).
Proof.
  split; (split; [reflexivity|]).
  - apply (proj1 (@C6_auto_resolution windows_host "dir")). reflexivity.
  - apply (proj2 (@C6_auto_resolution linux_host "ZGly")). reflexivity.
Defined.

(** The claim C7 read with validity of the input as it stands fails for
    ["ZGly"] followed by a line feed: the input is not valid base64, the
    line feed is not a character of the alphabet, and it decodes to
    ["dir"] without error. *)
Lemma C7_counterexample :
  ~ spec.valid_base64 (bytes_of_string ZGly_line_feed)
  /\ ~ Forall (fun c => spec.in_alphabet c = true
                        \/ c = base64.StdPadding)
         (bytes_of_string ZGly_line_feed)
  /\ executor.Base64Executor.DecodeCommand base64_sh ZGly_line_feed
     = ("dir", None).
Proof.
  split; [|split].
  - intros (body & pad & _ & _ & _ & Hm). vm_compute in Hm. discriminate.
  - intros H. rewrite Forall_forall in H.
    assert (Hin : "010"%char ∈ bytes_of_string ZGly_line_feed).
    { apply list_elem_of_In. vm_compute. tauto. }
    destruct (H _ Hin) as [Ha | Ha]; vm_compute in Ha; discriminate.
  - vm_compute. reflexivity.
Qed.

Lemma C7_witness :
  Forall (fun c => base64.isNewline c = false) (bytes_of_string "ZGly")
  /\ (snd (executor.Base64Executor.DecodeCommand base64_sh "ZGly") <> None
      <-> ~ spec.valid_base64 (bytes_of_string "ZGly"))
  /\ snd (executor.Base64Executor.DecodeCommand base64_sh "ZGly") = None
  /\ executor.Base64Executor.DecodeCommand base64_sh "ZGly" = ("dir", None).
Proof.
  assert (H : Forall (fun c => base64.isNewline c = false)
                (bytes_of_string "ZGly"))
    by (repeat constructor).
  pose proof (C7_decode_accepts_valid_modulo_newlines
                base64_sh base64_auto "ZGly") as (_ & H2 & H3 & _).
  split; [exact H|]. split; [exact (H2 H)|].
  split; [reflexivity|]. exact (H3 eq_refl).
Defined.

Lemma C9_witness :
  @executor.IsWindows windows_host = true
  /\ parser.ExecutorType
       (config_of executor.Base64Type executor.AutoShell ["execute"])
     = executor.Base64Type
  /\ parser.ShellType
       (config_of executor.Base64Type executor.AutoShell ["execute"])
     = executor.AutoShell
  /\ @main.shellType windows_host
       (config_of executor.Base64Type executor.AutoShell ["execute"])
     = executor.PowerShellShell.
Proof.
  repeat (split; [reflexivity|]).
  apply (@C9_windows_auto_override windows_host
           (config_of executor.Base64Type executor.AutoShell ["execute"]));
    reflexivity.
Defined.

Lemma C10_witness :
  ((length (parser.Args
              (config_of executor.PlainType executor.ShShell ["execute"]))
      < 2)%nat
   /\ parser.GetCommand
        (config_of executor.PlainType executor.ShShell ["execute"])
      = EmptyString)
  /\ ((2 <= length (parser.Args
                      (config_of executor.PlainType executor.ShShell
                         ["execute"; "echo"; "hi"])))%nat
      /\ parser.GetCommand
           (config_of executor.PlainType executor.ShShell
              ["execute"; "echo"; "hi"]) = "echo hi").
Proof.
  split.
  - assert (H : (length (parser.Args
                   (config_of executor.PlainType executor.ShShell
                      ["execute"])) < 2)%nat) by (simpl; lia).
    split; [exact H|].
    exact (proj1 (C10_GetCommand
                    (config_of executor.PlainType executor.ShShell
                       ["execute"])) H).
  - assert (H : (2 <= length (parser.Args
                    (config_of executor.PlainType executor.ShShell
                       ["execute"; "echo"; "hi"])))%nat) by (simpl; lia).
    split; [exact H|].
    exact (proj1 (proj2 (C10_GetCommand
                    (config_of executor.PlainType executor.ShShell
                       ["execute"; "echo"; "hi"]))) H).
Defined.

(** * Further properties of the code *)

(** ** The parsers of names *)

Lemma isASCII_bytes (s : string) :
  strings.isASCII s = true ->
  Forall (fun c => byte_val c < 128) (bytes_of_string s).
Proof.
  unfold strings.isASCII. intros H. apply Forall_forall. intros c Hc.
  rewrite forallb_forall in H. apply list_elem_of_In in Hc.
  specialize (H c Hc). lia.
Qed.

Lemma map_lower_id (l : list byte) :
  existsb (fun c => (65 <=? byte_val c) && (byte_val c <=? 90)) l = false ->
  map strings.lower l = l.
Proof.
  induction l as [|c l IH]; [reflexivity|]. cbn [existsb map].
  intros H. apply orb_false_iff in H as [Hc Hl].
  unfold strings.lower at 1. rewrite Hc, IH by assumption. reflexivity.
Qed.

Lemma map_upper_id (l : list byte) :
  existsb (fun c => (97 <=? byte_val c) && (byte_val c <=? 122)) l = false ->
  map strings.upper l = l.
Proof.
  induction l as [|c l IH]; [reflexivity|]. cbn [existsb map].
  intros H. apply orb_false_iff in H as [Hc Hl].
  unfold strings.upper at 1. rewrite Hc, IH by assumption. reflexivity.
Qed.

(** On a string of ASCII bytes [ToLower] lowers each byte. *)
Lemma ToLower_ascii `{unicode : Unicode} (s : string) :
  strings.isASCII s = true ->
  strings.ToLower s = string_of_bytes (map strings.lower (bytes_of_string s)).
Proof.
  intros H. unfold strings.ToLower. rewrite H.
  destruct (strings.hasUpper s) eqn:E; [reflexivity|].
  cbn [negb]. unfold strings.hasUpper in E.
  rewrite map_lower_id by assumption. symmetry. apply bytes_string_id.
Qed.

Lemma ToUpper_ascii `{unicode : Unicode} (s : string) :
  strings.isASCII s = true ->
  strings.ToUpper s = string_of_bytes (map strings.upper (bytes_of_string s)).
Proof.
  intros H. unfold strings.ToUpper. rewrite H.
  destruct (strings.hasLower s) eqn:E; [reflexivity|].
  cbn [negb]. unfold strings.hasLower in E.
  rewrite map_upper_id by assumption. symmetry. apply bytes_string_id.
Qed.

Lemma lower_range (c : byte) :
  byte_val c < 128 -> byte_val (strings.lower c) < 128.
Proof.
  intros Hc. unfold strings.lower.
  destruct ((65 <=? byte_val c) && (byte_val c <=? 90)) eqn:E; [|assumption].
  rewrite byte_val_to_byte. apply andb_true_iff in E as [E1 E2].
  rewrite Z.mod_small by lia. lia.
Qed.

Lemma lower_lower (c : byte) :
  strings.lower (strings.lower c) = strings.lower c.
Proof.
  destruct ((65 <=? byte_val c) && (byte_val c <=? 90)) eqn:E.
  - assert (H : strings.lower c = to_byte (byte_val c + 32))
      by (unfold strings.lower; rewrite E; reflexivity).
    rewrite H. unfold strings.lower. rewrite byte_val_to_byte.
    apply andb_true_iff in E as [E1 E2].
    rewrite Z.mod_small by lia.
    destruct ((65 <=? byte_val c + 32) && (byte_val c + 32 <=? 90)) eqn:E';
      [|reflexivity].
    apply andb_true_iff in E' as [E3 E4]. lia.
  - assert (H : strings.lower c = c)
      by (unfold strings.lower; rewrite E; reflexivity).
    rewrite !H. reflexivity.
Qed.

(** X1. [ParseShellType] inverts [ShellType.String] on the four shell
    types; the name of any other value is ["auto"], which parses to
    [AutoShell]. *)
Theorem X1_ParseShellType_String `{unicode : Unicode}
    (st : executor.ShellType) :
  executor.ParseShellType (executor.ShellType_String st)
  = if (0 <=? st) && (st <=? 3) then st else executor.AutoShell.
Proof.
  unfold executor.ShellType_String, executor.AutoShell, executor.CMDShell,
    executor.PowerShellShell, executor.ShShell.
  destruct (Z.eqb_spec st 0) as [-> | H0]; [reflexivity|].
  destruct (Z.eqb_spec st 1) as [-> | H1]; [reflexivity|].
  destruct (Z.eqb_spec st 2) as [-> | H2]; [reflexivity|].
  destruct (Z.eqb_spec st 3) as [-> | H3]; [reflexivity|].
  destruct ((0 <=? st) && (st <=? 3)) eqn:E; [|reflexivity].
  apply andb_true_iff in E as [E1 E2]. lia.
Qed.

(** X2. [ParseExecutorType] inverts [ExecutorType.String] on the two
    executor types; the name of any other value is ["base64"], which
    parses to [Base64Type]. *)
Theorem X2_ParseExecutorType_String `{unicode : Unicode}
    (et : executor.ExecutorType) :
  executor.ParseExecutorType (executor.ExecutorType_String et)
  = if et =? executor.PlainType then executor.PlainType
    else executor.Base64Type.
Proof.
  unfold executor.ExecutorType_String, executor.Base64Type,
    executor.PlainType.
  destruct (Z.eqb_spec et 0) as [-> | H0]; [reflexivity|].
  destruct (Z.eqb_spec et 1) as [-> | H1]; reflexivity.
Qed.

(** X3. The two parsers ignore the case of ASCII letters: a name of ASCII
    bytes parses as the name with its letters lowered. *)
Theorem X3_parsers_ignore_ascii_case `{unicode : Unicode} (s : string) :
  strings.isASCII s = true ->
  let lowered := string_of_bytes (map strings.lower (bytes_of_string s)) in
  executor.ParseShellType s = executor.ParseShellType lowered
  /\ executor.ParseExecutorType s = executor.ParseExecutorType lowered.
Proof.
  intros Hs lowered.
  assert (Hl : strings.isASCII lowered = true).
  { unfold strings.isASCII, lowered. rewrite string_bytes_id.
    apply forallb_forall. intros c Hc. apply in_map_iff in Hc.
    destruct Hc as (c0 & <- & Hc0).
    pose proof (isASCII_bytes s Hs) as HF. rewrite Forall_forall in HF.
    apply list_elem_of_In in Hc0. specialize (HF c0 Hc0).
    apply Z.ltb_lt. apply lower_range. assumption. }
  assert (E : strings.ToLower s = strings.ToLower lowered).
  { rewrite (ToLower_ascii s Hs), (ToLower_ascii lowered Hl).
    unfold lowered. rewrite string_bytes_id, map_map.
    f_equal. apply map_ext. intros c. symmetry. apply lower_lower. }
  unfold executor.ParseShellType, executor.ParseExecutorType.
  rewrite E. split; reflexivity.
Qed.

(** X4. Whatever the strings of the flags, the configuration that
    [ParseConfig] returns has one of the four shell types, one of the two
    executor types and one of the five log levels. *)
Theorem X4_ParseConfig_declared_values `{unicode : Unicode}
    (f : flag.Values) (c : parser.Config) :
  fst (parser.ParseConfig f) = Some c ->
  0 <= parser.ShellType c <= 3
  /\ spec.executor_type (parser.ExecutorType c)
  /\ 0 <= parser.LogLevel c <= 4.
Proof.
  unfold parser.ParseConfig.
  destruct (negb (flag.help f) && (length (flag.Args f) <? 1)%nat);
    [discriminate|].
  cbn [fst]. intros H. injection H as <-. cbn.
  split; [|split].
  - unfold executor.ParseShellType, executor.CMDShell,
      executor.PowerShellShell, executor.ShShell, executor.AutoShell.
    repeat match goal with |- context [if ?b then _ else _] => destruct b end;
      lia.
  - unfold executor.ParseExecutorType, spec.executor_type.
    repeat match goal with |- context [if ?b then _ else _] => destruct b end;
      auto.
  - unfold utils.ParseLogLevel, utils.DEBUG, utils.INFO, utils.WARN,
      utils.ERROR, utils.FATAL.
    repeat match goal with |- context [if ?b then _ else _] => destruct b end;
      lia.
Qed.

(** X5. [ParseLogLevel] inverts [LogLevel.String] on the five log levels;
    the name of any other value is ["UNKNOWN"], which parses to [INFO]. *)
Theorem X5_ParseLogLevel_String `{unicode : Unicode} (l : utils.LogLevel) :
  utils.ParseLogLevel (utils.LogLevel_String l)
  = if (0 <=? l) && (l <=? 4) then l else utils.INFO.
Proof.
  unfold utils.LogLevel_String, utils.DEBUG, utils.INFO, utils.WARN,
    utils.ERROR, utils.FATAL.
  destruct (Z.eqb_spec l 0) as [-> | H0]; [reflexivity|].
  destruct (Z.eqb_spec l 1) as [-> | H1]; [reflexivity|].
  destruct (Z.eqb_spec l 2) as [-> | H2]; [reflexivity|].
  destruct (Z.eqb_spec l 3) as [-> | H3]; [reflexivity|].
  destruct (Z.eqb_spec l 4) as [-> | H4]; [reflexivity|].
  destruct ((0 <=? l) && (l <=? 4)) eqn:E; [|reflexivity].
  apply andb_true_iff in E as [E1 E2]. lia.
Qed.

Lemma ParseLogLevel_range `{unicode : Unicode} (name : string) :
  0 <= utils.ParseLogLevel name <= 4.
Proof.
  unfold utils.ParseLogLevel, utils.DEBUG, utils.INFO, utils.WARN,
    utils.ERROR, utils.FATAL.
  repeat match goal with |- context [if ?b then _ else _] => destruct b end;
    lia.
Qed.

(** X6. Whatever name of a level is given, the logger made for the parsed
    level writes every FATAL message, to the standard output, and it
    writes a message of another level exactly when that level is not
    below the parsed one. *)
Theorem X6_logger_filter `{unicode : Unicode}
    (name timestamp module message : string) (level : utils.LogLevel) :
  let l := utils.NewLogger (utils.ParseLogLevel name) in
  (exists line,
     utils.logWithModule l timestamp utils.FATAL module message
     = Some (os.Stdout, line))
  /\ (utils.logWithModule l timestamp level module message <> None
      <-> utils.ParseLogLevel name <= level).
Proof.
  intros l. pose proof (ParseLogLevel_range name) as R. split.
  - unfold utils.logWithModule, l, utils.NewLogger, utils.level,
      utils.output, utils.FATAL.
    destruct (Z.ltb_spec 4 (utils.ParseLogLevel name)); [lia|].
    eexists. reflexivity.
  - unfold utils.logWithModule, l, utils.NewLogger, utils.level.
    destruct (Z.ltb_spec level (utils.ParseLogLevel name)); split;
      try congruence; try lia; intros _; discriminate.
Qed.

(** ** The validator on parsed flags *)

Lemma ParseShellType_cmd `{unicode : Unicode} (s : string) :
  executor.ParseShellType s = executor.CMDShell
  <-> strings.ToLower s = "cmd".
Proof.
  unfold executor.ParseShellType.
  destruct (String.eqb_spec (strings.ToLower s) "cmd") as [E | E].
  - tauto.
  - split; [|contradiction].
    unfold executor.CMDShell, executor.PowerShellShell, executor.ShShell,
      executor.AutoShell.
    repeat match goal with |- context [if ?b then _ else _] => destruct b end;
      discriminate.
Qed.

Lemma ParseExecutorType_base64 `{unicode : Unicode} (s : string) :
  executor.ParseExecutorType s = executor.Base64Type
  <-> strings.ToLower s <> "plain".
Proof.
  unfold executor.ParseExecutorType.
  destruct (String.eqb_spec (strings.ToLower s) "base64") as [E | E].
  - rewrite E. split; [discriminate | reflexivity].
  - destruct (String.eqb_spec (strings.ToLower s) "plain") as [E' | E'].
    + split; [discriminate | contradiction].
    + tauto.
Qed.

(** X7. The compatibility validator rejects the configuration parsed from
    the flags exactly when the shell name lowered is ["cmd"] and the
    executor name lowered is not ["plain"]: an unknown executor name counts
    as base64. *)
Theorem X7_parsed_flags_rejected `{unicode : Unicode}
    (f : flag.Values) (c : parser.Config) :
  fst (parser.ParseConfig f) = Some c ->
  (parser.ValidateExecutorShellCompatibility c <> None
   <-> strings.ToLower (flag.shell f) = "cmd"
       /\ strings.ToLower (flag.executor f) <> "plain").
Proof.
  intros Hc.
  assert (Hst : parser.ShellType c = executor.ParseShellType (flag.shell f)
                /\ parser.ExecutorType c
                   = executor.ParseExecutorType (flag.executor f)).
  { unfold parser.ParseConfig in Hc.
    destruct (negb (flag.help f) && (length (flag.Args f) <? 1)%nat);
      [discriminate|].
    cbn [fst] in Hc. injection Hc as <-. split; reflexivity. }
  destruct Hst as [Hs He].
  rewrite validate_by_names, ShellType_String_cmd, Hs, He.
  rewrite ParseShellType_cmd, <- ParseExecutorType_base64.
  assert (Hn : executor.ExecutorType_String
                 (executor.ParseExecutorType (flag.executor f)) = "base64"
               <-> executor.ParseExecutorType (flag.executor f)
                   = executor.Base64Type).
  { unfold executor.ParseExecutorType, executor.Base64Type,
      executor.PlainType.
    repeat match goal with |- context [if ?b then _ else _] => destruct b end;
      cbn; split; congruence. }
  tauto.
Qed.

(** ** The shell-invocation builders on any value of the shell type *)

(** X8. A value of [ShellType] outside the four constants is treated as
    [AutoShell] by both builders. *)
Theorem X8_builders_fallback `{host : Host} (payload : string)
    (st : executor.ShellType) :
  ~ 0 <= st <= 3 ->
  executor.GetShellCommand payload st
  = executor.GetShellCommand payload executor.AutoShell
  /\ executor.GetShellCommandForBase64 payload st
     = executor.GetShellCommandForBase64 payload executor.AutoShell.
Proof.
  intros Hst.
  unfold executor.GetShellCommand, executor.GetShellCommandForBase64,
    executor.AutoShell, executor.CMDShell, executor.PowerShellShell,
    executor.ShShell.
  destruct (Z.eqb_spec st 0); [lia|]. destruct (Z.eqb_spec st 1); [lia|].
  destruct (Z.eqb_spec st 2); [lia|]. destruct (Z.eqb_spec st 3); [lia|].
  destruct executor.IsWindows; split; reflexivity.
Qed.

(** X9. For every value of the shell type the plaintext builder runs
    [cmd], [powershell] or [sh] with the flag of that program and the
    command, unchanged, as the one other argument; no stream is attached
    yet; and on a host that is not Windows it runs [cmd] only for
    [CMDShell]. *)
Theorem X9_GetShellCommand_shape `{host : Host} (command : string)
    (st : executor.ShellType) :
  (executor.GetShellCommand command st = exec.Command "cmd" ["/C"; command]
   \/ executor.GetShellCommand command st
      = exec.Command "powershell" ["-Command"; command]
   \/ executor.GetShellCommand command st
      = exec.Command "sh" ["-c"; command])
  /\ (executor.IsWindows = false -> st <> executor.CMDShell ->
      exec.Path (executor.GetShellCommand command st) <> "cmd").
Proof.
  unfold executor.GetShellCommand, executor.AutoShell, executor.CMDShell,
    executor.PowerShellShell, executor.ShShell.
  destruct (Z.eqb_spec st 0) as [-> | H0].
  - destruct executor.IsWindows; cbn; split; auto; intros; discriminate.
  - destruct (Z.eqb_spec st 1) as [-> | H1]; [cbn; split; auto; tauto|].
    destruct (Z.eqb_spec st 2) as [-> | H2];
      [cbn; split; auto; intros; discriminate|].
    destruct (Z.eqb_spec st 3) as [-> | H3];
      [cbn; split; auto; intros; discriminate|].
    destruct executor.IsWindows; cbn; split; auto; intros; discriminate.
Qed.

(** ** The strategies *)


Lemma EncodeToString_alphabet (bs : list byte) :
  Forall (fun ch => spec.in_alphabet ch = true \/ ch = base64.StdPadding)
    (bytes_of_string (base64.EncodeToString bs)).
Proof.
  unfold base64.EncodeToString. rewrite string_bytes_id.
  apply (Encode_alphabet (length bs)). lia.
Qed.

Lemma bytes_of_string_app (a b : string) :
  bytes_of_string (a ++ b)%string = bytes_of_string a ++ bytes_of_string b.
Proof.
  induction a as [|x a IH]; [reflexivity|].
  cbn. f_equal. exact IH.
Qed.

Lemma no_quote (l : list byte) :
  Forall (fun ch => spec.in_alphabet ch = true \/ ch = base64.StdPadding) l ->
  count_occ ascii_dec l "'"%char = 0%nat.
Proof.
  intros H. apply count_occ_not_In. intros Hin.
  rewrite Forall_forall in H. apply list_elem_of_In in Hin.
  destruct (H _ Hin) as [A | A]; [vm_compute in A|]; discriminate.
Qed.

(** X11. Under every shell type, the PowerShell path included, the
    encoding of a command has only characters of the base64 alphabet and
    padding, and so has the default command of a Base64 strategy; the
    pipeline that the base64 builder makes for [sh] from an encoding
    therefore has two single quotes, those written by the builder. *)
Theorem X11_payload_never_breaks_quotes `{host : Host}
    (be : executor.Base64Executor.t) (c : string)
    (st : executor.ShellType) :
  let ok := fun ch => spec.in_alphabet ch = true \/ ch = base64.StdPadding in
  Forall ok (bytes_of_string (executor.Base64Executor.EncodeCommand be c))
  /\ Forall ok
       (bytes_of_string
          (executor.Base64Executor.defaultCommand
             (executor.NewBase64ExecutorWithShell st)))
  /\ exists pipeline : string,
       executor.GetShellCommandForBase64
         (executor.Base64Executor.EncodeCommand be c) executor.ShShell
       = exec.Command "sh" ["-c"; pipeline]
       /\ count_occ ascii_dec (bytes_of_string pipeline) "'"%char = 2%nat.
Proof.
  intros ok.
  assert (A : Forall ok
            (bytes_of_string (executor.Base64Executor.EncodeCommand be c))).
  { unfold executor.Base64Executor.EncodeCommand,
      executor.Base64Executor.encodeForPowerShell.
    destruct (_ =? _); apply EncodeToString_alphabet. }
  split; [exact A|]. split.
  - unfold executor.NewBase64ExecutorWithShell,
      executor.getDefaultBase64Command.
    cbn [executor.Base64Executor.defaultCommand].
    destruct executor.IsWindows; apply EncodeToString_alphabet.
  - set (p := executor.Base64Executor.EncodeCommand be c) in *.
    exists ("echo '" ++ p ++ "' | base64 -d | sh")%string.
    split; [reflexivity|].
    rewrite (bytes_of_string_app "echo '" (p ++ "' | base64 -d | sh")).
    rewrite (bytes_of_string_app p "' | base64 -d | sh").
    rewrite !count_occ_app. pose proof (no_quote _ A) as Q.
    unfold byte in *. rewrite Q. reflexivity.
Qed.

Lemma flat_map_pair_length (l : list byte) :
  length (flat_map (fun c => [c; "000"%char]) l) = (2 * length l)%nat.
Proof.
  induction l as [|c l IH]; [reflexivity|]. cbn. rewrite IH. lia.
Qed.

(** X12. With a strategy of shell type PowerShell, decoding the encoding
    of a command gives, without error, the UTF-16 little-endian bytes of
    the command as text: for a command of ASCII characters, each character
    followed by a zero byte, which is not the command unless it is
    empty. *)
Theorem X12_powershell_round_trip
    (be be' : executor.Base64Executor.t) (c : string) :
  executor.Base64Executor.shellType be = executor.PowerShellShell ->
  executor.Base64Executor.DecodeCommand be'
    (executor.Base64Executor.EncodeCommand be c)
  = (string_of_bytes (spec.utf16le (spec.utf16_units c)), None)
  /\ (spec.is_ascii c ->
      spec.utf16le (spec.utf16_units c)
      = flat_map (fun ch => [ch; "000"%char]) (bytes_of_string c)
      /\ (c <> EmptyString ->
          string_of_bytes (spec.utf16le (spec.utf16_units c)) <> c)).
Proof.
  intros Hps. split.
  - unfold executor.Base64Executor.EncodeCommand,
      executor.Base64Executor.encodeForPowerShell,
      executor.Base64Executor.DecodeCommand.
    rewrite Hps, Z.eqb_refl, utf16Bytes_of_spec, DecodeString_EncodeToString.
    reflexivity.
  - intros Ha. pose proof (utf16le_ascii c Ha) as E. split; [exact E|].
    intros Hne Heq. rewrite E in Heq.
    apply (f_equal bytes_of_string) in Heq. rewrite string_bytes_id in Heq.
    apply (f_equal (@length byte)) in Heq.
    rewrite flat_map_pair_length in Heq.
    destruct c as [|x c]; [congruence|]. cbn in Heq. lia.
Qed.

(** X13. The strategy of [NewBase64Executor] stores as default the
    encoding, by its own [EncodeCommand], of the default plaintext command
    of the host; and for shell type Auto [CreateExecutor] builds the
    strategy that [main] builds. *)
Theorem X13_default_constructors `{host : Host} (config : parser.Config) :
  executor.Base64Executor.defaultCommand executor.NewBase64Executor
  = executor.Base64Executor.EncodeCommand executor.NewBase64Executor
      executor.getDefaultPlainCommand
  /\ (parser.ShellType config = executor.AutoShell ->
      spec.executor_type (parser.ExecutorType config) ->
      executor.CreateExecutor (parser.ExecutorType config)
      = main.cmdExecutor config).
Proof.
  split.
  - unfold executor.NewBase64Executor, executor.getDefaultBase64Command,
      executor.getDefaultPlainCommand,
      executor.Base64Executor.EncodeCommand,
      executor.Base64Executor.encodeForPowerShell.
    destruct executor.IsWindows; reflexivity.
  - intros Hst [Het | Het]; unfold main.cmdExecutor, main.shellType,
      executor.CreateExecutor, executor.CreateExecutorWithShell,
      executor.NewBase64Executor, executor.NewBase64ExecutorWithShell,
      executor.NewPlainExecutor, executor.NewPlainExecutorWithShell;
      rewrite Hst, Het; cbn; destruct executor.IsWindows; reflexivity.
Qed.

(** X14. The default command stored by [NewBase64ExecutorWithShell] is the
    strategy's own encoding of the host's default plaintext command
    exactly when the shell type is PowerShell on a Windows host or is not
    PowerShell on another host. *)
Theorem X14_default_matches_encoding `{host : Host}
    (st : executor.ShellType) :
  executor.Base64Executor.defaultCommand
    (executor.NewBase64ExecutorWithShell st)
  = executor.Base64Executor.EncodeCommand
      (executor.NewBase64ExecutorWithShell st)
      executor.getDefaultPlainCommand
  <-> (executor.IsWindows = true <-> st = executor.PowerShellShell).
Proof.
  unfold executor.NewBase64ExecutorWithShell,
    executor.getDefaultBase64Command, executor.getDefaultPlainCommand,
    executor.Base64Executor.EncodeCommand,
    executor.Base64Executor.encodeForPowerShell.
  cbn [executor.Base64Executor.defaultCommand
         executor.Base64Executor.shellType].
  destruct executor.IsWindows;
    destruct (Z.eqb_spec st executor.PowerShellShell) as [E | E].
  - split; [tauto | reflexivity].
  - split; [vm_compute; discriminate | intros H; exfalso; tauto].
  - split; [vm_compute; discriminate|].
    intros H. exfalso. destruct H as [_ H]. specialize (H E). discriminate.
  - split; [intros _; split; [discriminate | contradiction] | reflexivity].
Qed.

Lemma Encode_not_empty (bs : list byte) :
  bs <> [] -> base64.EncodeToString bs <> EmptyString.
Proof.
  destruct bs as [|b0 [|b1 [|b2 rest]]]; [congruence | | |];
    intros _; cbn; discriminate.
Qed.

(** X15. With a Base64 strategy whose shell type is neither PowerShell nor
    Sh, executing the encoding of a non-empty command does what the Plain
    strategy of the same shell type does with the command itself. *)
Theorem X15_execute_encoded_as_plain `{host : Host}
    (be : executor.Base64Executor.t) (c : string)
    (started : list exec.Cmd) :
  executor.Base64Executor.shellType be <> executor.PowerShellShell ->
  executor.Base64Executor.shellType be <> executor.ShShell ->
  c <> EmptyString ->
  executor.Base64Executor.ExecuteCommand be
    (executor.Base64Executor.EncodeCommand be c) started
  = executor.PlainExecutor.ExecuteCommand
      (executor.NewPlainExecutorWithShell
         (executor.Base64Executor.shellType be)) c started.
Proof.
  intros Hps Hsh Hc.
  assert (E : executor.Base64Executor.EncodeCommand be c
              = base64.EncodeToString (bytes_of_string c)).
  { unfold executor.Base64Executor.EncodeCommand.
    destruct (Z.eqb_spec (executor.Base64Executor.shellType be)
                executor.PowerShellShell); [contradiction | reflexivity]. }
  assert (Hne : base64.EncodeToString (bytes_of_string c) <> EmptyString).
  { apply Encode_not_empty. destruct c; [congruence | discriminate]. }
  rewrite E. unfold executor.Base64Executor.ExecuteCommand,
    executor.PlainExecutor.ExecuteCommand.
  apply String.eqb_neq in Hne, Hc. rewrite Hne, Hc.
  apply Z.eqb_neq in Hps, Hsh. rewrite Hps, Hsh. cbn [orb].
  unfold executor.Base64Executor.DecodeCommand.
  rewrite DecodeString_EncodeToString, bytes_string_id. reflexivity.
Qed.

(** X16. [ExecuteCommandWithValidation] refuses the empty command, and
    only it, with an error and without writing or starting anything; any
    other command is announced on one line and run as the Plain strategy
    of that shell type runs it. *)
Theorem X16_validated_execution `{host : Host} (command : string)
    (st : executor.ShellType) (started : list exec.Cmd) :
  (command = EmptyString ->
   executor.ExecuteCommandWithValidation command st started
   = ((Some "command cannot be empty", []), started))
  /\ (command <> EmptyString ->
      let r :=
        executor.PlainExecutor.executeCommand
          (executor.NewPlainExecutorWithShell st) command started in
      executor.ExecuteCommandWithValidation command st started
      = ((fst r,
          [("Executing command: " ++ command
              ++ String "010"%char EmptyString)%string]),
         snd r)).
Proof.
  split.
  - intros ->. reflexivity.
  - intros Hc r. unfold r, executor.ExecuteCommandWithValidation,
      executor.ValidateCommand, executor.PlainExecutor.executeCommand.
    apply String.eqb_neq in Hc. rewrite Hc.
    unfold bind, Cmd_Run, ret. cbn.
    destruct (Run _); reflexivity.
Qed.

(** X17. The predicates on the host agree: a Linux host is Unix-like, and
    a Windows host is neither Linux nor Unix-like. *)
Theorem X17_host_predicates `{host : Host} :
  (executor.IsLinux = true -> executor.IsUnix = true)
  /\ (executor.IsWindows = true ->
      executor.IsLinux = false /\ executor.IsUnix = false).
Proof.
  unfold executor.IsLinux, executor.IsUnix, executor.IsWindows. split.
  - intros ->. reflexivity.
  - intros H. apply String.eqb_eq in H. rewrite H. split; reflexivity.
Qed.

(** ** The validation of the action *)

Lemma ValidateAction_accepts (c : parser.Config) :
  parser.Help c = false ->
  (parser.ValidateAction c = None
   <-> parser.ValidateExecutorShellCompatibility c = None
       /\ (parser.Action c = "execute" \/ parser.Action c = "info"
           \/ ((parser.Action c = "encode" \/ parser.Action c = "decode")
               /\ (2 <= length (parser.Args c))%nat))).
Proof.
  intros Hh. unfold parser.ValidateAction. rewrite Hh.
  destruct (parser.ValidateExecutorShellCompatibility c) as [err|].
  - split; [discriminate | intros [H _]; discriminate].
  - destruct (String.eqb_spec (parser.Action c) "execute") as [E1 | E1];
      [split; [intros _; split; [reflexivity | tauto] | reflexivity]|].
    destruct (String.eqb_spec (parser.Action c) "encode") as [E2 | E2].
    { destruct (Nat.ltb_spec (length (parser.Args c)) 2) as [L | L].
      - split; [discriminate|]. intros [_ [H | [H | [_ H]]]].
        + congruence.
        + rewrite E2 in H. discriminate.
        + lia.
      - split; [intros _; split; [reflexivity | tauto] | reflexivity]. }
    destruct (String.eqb_spec (parser.Action c) "decode") as [E3 | E3].
    { destruct (Nat.ltb_spec (length (parser.Args c)) 2) as [L | L].
      - split; [discriminate|]. intros [_ [H | [H | [_ H]]]].
        + congruence.
        + rewrite E3 in H. discriminate.
        + lia.
      - split; [intros _; split; [reflexivity | tauto] | reflexivity]. }
    destruct (String.eqb_spec (parser.Action c) "info") as [E4 | E4];
      [split; [intros _; split; [reflexivity | tauto] | reflexivity]|].
    split; [discriminate|]. intros [_ [H | [H | [[H | H] _]]]]; congruence.
Qed.

(** X18. With the help flag [ValidateAction] accepts every configuration.
    Without it, it accepts a configuration exactly when the compatibility
    validator does and the action is execute or info, or is encode or
    decode with at least one argument after it; the error of the
    compatibility validator comes before any error on the action. *)
Theorem X18_ValidateAction (c : parser.Config) :
  (parser.Help c = true -> parser.ValidateAction c = None)
  /\ (parser.Help c = false ->
      (parser.ValidateAction c = None
       <-> parser.ValidateExecutorShellCompatibility c = None
           /\ (parser.Action c = "execute" \/ parser.Action c = "info"
               \/ ((parser.Action c = "encode"
                    \/ parser.Action c = "decode")
                   /\ (2 <= length (parser.Args c))%nat)))
      /\ (parser.ValidateExecutorShellCompatibility c <> None ->
          parser.ValidateAction c
          = parser.ValidateExecutorShellCompatibility c)).
Proof.
  split.
  - intros Hh. unfold parser.ValidateAction. rewrite Hh. reflexivity.
  - intros Hh. split; [apply ValidateAction_accepts; assumption|].
    unfold parser.ValidateAction. rewrite Hh.
    destruct (parser.ValidateExecutorShellCompatibility c);
      [reflexivity | congruence].
Qed.

(** ** The program *)

Lemma ParseConfig_some `{unicode : Unicode} (f : flag.Values) :
  flag.help f = true \/ flag.Args f <> [] ->
  parser.ParseConfig f = (Some (parsed_config f), None).
Proof.
  intros H. unfold parser.ParseConfig, parsed_config.
  assert (E : negb (flag.help f) && (length (flag.Args f) <? 1)%nat = false).
  { destruct H as [-> | H]; [reflexivity|].
    destruct (flag.Args f); [congruence|]. apply andb_false_r. }
  rewrite E. destruct (flag.Args f); reflexivity.
Qed.

Lemma ParseConfig_none `{unicode : Unicode} (f : flag.Values) :
  flag.help f = false -> flag.Args f = [] ->
  parser.ParseConfig f = (None, Some "no action specified").
Proof.
  intros Hh Ha. unfold parser.ParseConfig. rewrite Hh, Ha. reflexivity.
Qed.

(** X19. With the help flag [main] writes the usage text and ends with
    status 0 without validating or starting anything, whatever the other
    flags and arguments are; without it and without an action it writes
    an error and the usage text and ends with status 1. *)
Theorem X19_main_help_and_no_action `{host : Host} `{unicode : Unicode}
    (f : flag.Values) :
  (flag.help f = true ->
   main.main f
   = {| main.exit_code := 0; main.printed := [main.Usage];
        main.started := [] |})
  /\ (flag.help f = false -> flag.Args f = [] ->
      main.main f
      = {| main.exit_code := 1;
           main.printed :=
             [main.Text ("Error: no action specified"
                           ++ String "010"%char EmptyString)%string;
              main.Usage];
           main.started := [] |}).
Proof.
  split.
  - intros Hh. unfold main.main.
    rewrite ParseConfig_some by (left; assumption).
    unfold parsed_config. cbn [parser.Help]. rewrite Hh. reflexivity.
  - intros Hh Ha. unfold main.main.
    rewrite ParseConfig_none by assumption. reflexivity.
Qed.

Lemma main_after_validation `{host : Host} `{unicode : Unicode}
    (f : flag.Values) :
  flag.help f = false -> flag.Args f <> [] ->
  parser.ValidateAction (parsed_config f) <> None ->
  main.main f
  = {| main.exit_code := 1; main.printed := [main.Usage];
       main.started := [] |}.
Proof.
  intros Hh Ha Hv. unfold main.main.
  rewrite ParseConfig_some by (right; assumption).
  assert (E : parser.Help (parsed_config f) = false) by exact Hh.
  rewrite E.
  destruct (parser.ValidateAction (parsed_config f)); [reflexivity|].
  congruence.
Qed.

(** X20. Without the help flag, when the shell name lowered is ["cmd"] and
    the executor name lowered is not ["plain"], [main] writes the usage
    text and ends with status 1 without starting a process, for every
    action, the action info included. *)
Theorem X20_main_rejects_base64_cmd `{host : Host} `{unicode : Unicode}
    (f : flag.Values) :
  flag.help f = false -> flag.Args f <> [] ->
  strings.ToLower (flag.shell f) = "cmd" ->
  strings.ToLower (flag.executor f) <> "plain" ->
  main.main f
  = {| main.exit_code := 1; main.printed := [main.Usage];
       main.started := [] |}.
Proof.
  intros Hh Ha Hs He. apply main_after_validation; try assumption.
  unfold parser.ValidateAction.
  assert (E : parser.Help (parsed_config f) = false) by exact Hh.
  rewrite E.
  assert (V : parser.ValidateExecutorShellCompatibility (parsed_config f)
              <> None).
  { apply validate_by_names. unfold parsed_config.
    cbn [parser.ExecutorType parser.ShellType].
    apply ParseShellType_cmd in Hs. apply ParseExecutorType_base64 in He.
    rewrite Hs, He. split; reflexivity. }
  destruct (parser.ValidateExecutorShellCompatibility (parsed_config f));
    [discriminate | congruence].
Qed.




(** X22. Without the help flag [main] never ends with status 0 after
    writing the usage text: the branch of its switch for an unknown
    action is not reached, an unknown action ends with status 1. *)
Theorem X22_main_usage_means_failure `{host : Host} `{unicode : Unicode}
    (f : flag.Values) :
  flag.help f = false ->
  main.exit_code (main.main f) = 0 ->
  ~ In main.Usage (main.printed (main.main f)).
Proof.
  intros Hh.
  destruct (flag.Args f) as [|a rest] eqn:Ha.
  { unfold main.main. rewrite ParseConfig_none by assumption.
    cbn. discriminate. }
  unfold main.main.
  rewrite ParseConfig_some by (right; congruence).
  assert (E : parser.Help (parsed_config f) = false) by exact Hh.
  rewrite E.
  destruct (parser.ValidateAction (parsed_config f)) eqn:V;
    [cbn; discriminate|].
  apply ValidateAction_accepts in V; [|exact E].
  destruct V as [_ V].
  destruct (String.eqb_spec (parser.Action (parsed_config f)) "execute").
  { destruct (executor.ExecuteCommand _ _ []) as [[err|] procs];
      cbn; [discriminate | tauto]. }
  destruct (String.eqb_spec (parser.Action (parsed_config f)) "encode").
  { cbn. intros _ [H | []]. discriminate. }
  destruct (String.eqb_spec (parser.Action (parsed_config f)) "decode").
  { destruct (executor.DecodeCommand _ _) as [decoded [err|]];
      cbn; [discriminate|]. intros _ [H | []]. discriminate. }
  destruct (String.eqb_spec (parser.Action (parsed_config f)) "info").
  { cbn. intros _ H. repeat (destruct H as [H | H]; [discriminate|]).
    exact H. }
  exfalso. destruct V as [V | [V | [[V | V] _]]]; congruence.
Qed.

Lemma interface_round_trip (e : executor.CommandExecutor) (c : string) :
  match e with
  | executor.OfBase64 be =>
      executor.Base64Executor.shellType be <> executor.PowerShellShell
  | executor.OfPlain _ => True
  end ->
  executor.DecodeCommand e (executor.EncodeCommand e c) = (c, None).
Proof.
  destruct e as [be | pe]; [|reflexivity].
  intros Hps. cbn [executor.DecodeCommand executor.EncodeCommand].
  unfold executor.Base64Executor.EncodeCommand,
    executor.Base64Executor.DecodeCommand.
  destruct (Z.eqb_spec (executor.Base64Executor.shellType be)
              executor.PowerShellShell); [contradiction|].
  rewrite DecodeString_EncodeToString, bytes_string_id. reflexivity.
Qed.

Lemma ParseExecutorType_cases `{unicode : Unicode} (s : string) :
  executor.ParseExecutorType s = executor.Base64Type
  \/ executor.ParseExecutorType s = executor.PlainType.
Proof.
  unfold executor.ParseExecutorType.
  repeat match goal with |- context [if ?b then _ else _] => destruct b end;
    auto.
Qed.

(** X23. Without the help flag, with the plain executor, or with the
    base64 executor and shell sh, or shell auto on a host that is not
    Windows: [main] with the action encode and a command of one or more
    words writes one line with an encoding and ends with status 0, and
    [main] with the same flags, the action decode and that encoding
    writes back the words joined by single spaces. *)
Theorem X23_main_encode_then_decode `{host : Host} `{unicode : Unicode}
    (f : flag.Values) (w : string) (ws : list string) :
  flag.help f = false ->
  executor.ParseExecutorType (flag.executor f) = executor.PlainType
  \/ executor.ParseShellType (flag.shell f) = executor.ShShell
  \/ (executor.ParseShellType (flag.shell f) = executor.AutoShell
      /\ executor.IsWindows = false) ->
  exists encoded : string,
    main.main (with_args f ("encode" :: w :: ws))
    = {| main.exit_code := 0;
         main.printed :=
           [main.Text ("Base64 encoded command: " ++ encoded
                         ++ String "010"%char EmptyString)%string];
         main.started := [] |}
    /\ main.main (with_args f ["decode"; encoded])
       = {| main.exit_code := 0;
            main.printed :=
              [main.Text ("Decoded command: "
                            ++ String.concat " " (w :: ws)
                            ++ String "010"%char EmptyString)%string];
            main.started := [] |}.
Proof.
  intros Hh Hcfg.
  set (et := executor.ParseExecutorType (flag.executor f)) in *.
  set (st := executor.ParseShellType (flag.shell f)) in *.
  (* the strategy that main builds, the same for both runs *)
  set (e := executor.CreateExecutorWithShell et
              (if (et =? executor.Base64Type) && (st =? executor.AutoShell)
                  && executor.IsWindows
               then executor.PowerShellShell else st)).
  assert (He : match e with
               | executor.OfBase64 be =>
                   executor.Base64Executor.shellType be
                   <> executor.PowerShellShell
               | executor.OfPlain _ => True
               end).
  { unfold e, executor.CreateExecutorWithShell.
    destruct (ParseExecutorType_cases (flag.executor f)) as [Eb | Ep];
      fold et in Eb || fold et in Ep.
    - rewrite Eb. cbn -[executor.IsWindows].
      destruct Hcfg as [Hp | [Hs | [Ha Hw]]].
      + rewrite Eb in Hp. discriminate.
      + rewrite Hs. cbn. discriminate.
      + rewrite Ha, Hw. cbn. discriminate.
    - rewrite Ep. cbn. exact I. }
  (* both configurations pass the validation *)
  assert (Hv : forall args a,
            hd EmptyString args = a -> (2 <= length args)%nat ->
            a = "encode" \/ a = "decode" ->
            parser.ValidateAction (parsed_config (with_args f args)) = None).
  { intros args a Hhd Hlen Ha. apply ValidateAction_accepts; [exact Hh|].
    split.
    - destruct (parser.ValidateExecutorShellCompatibility
                  (parsed_config (with_args f args))) eqn:V; [|reflexivity].
      exfalso.
      assert (V' : parser.ValidateExecutorShellCompatibility
                     (parsed_config (with_args f args)) <> None)
        by (rewrite V; discriminate).
      apply validate_by_names in V'. destruct V' as [V1 V2].
      cbn [parsed_config parser.ExecutorType parser.ShellType with_args
             flag.shell flag.executor] in V1, V2.
      fold et in V1. fold st in V2.
      destruct Hcfg as [Hp | [Hs | [Hs _]]].
      + rewrite Hp in V1. discriminate.
      + rewrite Hs in V2. discriminate.
      + rewrite Hs in V2. discriminate.
    - right. right. split; [|exact Hlen].
      cbn [parsed_config parser.Action with_args flag.Args].
      rewrite Hhd. exact Ha. }
  exists (executor.EncodeCommand e (String.concat " " (w :: ws))).
  split.
  - unfold main.main.
    rewrite ParseConfig_some by (right; discriminate).
    assert (E : parser.Help (parsed_config
                  (with_args f ("encode" :: w :: ws))) = false) by exact Hh.
    rewrite E.
    rewrite (Hv ("encode" :: w :: ws) "encode") by (cbn; auto; lia).
    cbn [parsed_config parser.Action with_args flag.Args hd String.eqb
           Ascii.eqb Bool.eqb].
    unfold parser.GetCommand.
    cbn [parsed_config parser.Args with_args flag.Args length Nat.ltb
           Nat.leb drop].
    rewrite Join_concat. reflexivity.
  - unfold main.main.
    rewrite ParseConfig_some by (right; discriminate).
    assert (E : parser.Help (parsed_config
                  (with_args f
                     ["decode";
                      executor.EncodeCommand e
                        (String.concat " " (w :: ws))])) = false)
      by exact Hh.
    rewrite E.
    rewrite (Hv ["decode"; _] "decode") by (cbn; auto; lia).
    cbn [parsed_config parser.Action with_args flag.Args hd String.eqb
           Ascii.eqb Bool.eqb].
    unfold parser.GetCommand.
    cbn [parsed_config parser.Args with_args flag.Args length Nat.ltb
           Nat.leb drop strings.Join].
    change (main.cmdExecutor _) with e.
    rewrite interface_round_trip by exact He. reflexivity.
Qed.

(** ** The further properties at concrete inputs *)

Lemma X3_witness :
  strings.isASCII "PowerShell" = true
  /\ @executor.ParseShellType ascii_only "PowerShell"
     = executor.PowerShellShell.
Proof.
  split; [reflexivity|].
  exact (proj1 (@X3_parsers_ignore_ascii_case ascii_only "PowerShell"
                  eq_refl)).
Defined.

Lemma X4_witness :
  fst (@parser.ParseConfig ascii_only
         (flags_of "cmd" "base64" false ["info"]))
  = Some (@parsed_config ascii_only (flags_of "cmd" "base64" false ["info"]))
  /\ 0 <= parser.ShellType
            (@parsed_config ascii_only
               (flags_of "cmd" "base64" false ["info"])) <= 3.
Proof.
  split; [reflexivity|].
  exact (proj1 (@X4_ParseConfig_declared_values ascii_only
                  (flags_of "cmd" "base64" false ["info"])
                  (@parsed_config ascii_only
                     (flags_of "cmd" "base64" false ["info"]))
                  eq_refl)).
Defined.

Lemma X7_witness :
  fst (@parser.ParseConfig ascii_only
         (flags_of "CMD" "b64" false ["info"]))
  = Some (@parsed_config ascii_only (flags_of "CMD" "b64" false ["info"]))
  /\ parser.ValidateExecutorShellCompatibility
       (@parsed_config ascii_only (flags_of "CMD" "b64" false ["info"]))
     <> None.
Proof.
  split; [reflexivity|].
  apply (@X7_parsed_flags_rejected ascii_only
           (flags_of "CMD" "b64" false ["info"])
           (@parsed_config ascii_only
              (flags_of "CMD" "b64" false ["info"]))
           eq_refl).
  split; [reflexivity | discriminate].
Defined.

Lemma X8_witness :
  ~ 0 <= 7 <= 3
  /\ @executor.GetShellCommand linux_host "dir" 7
     = exec.Command "sh" ["-c"; "dir"].
Proof.
  assert (H : ~ 0 <= 7 <= 3) by lia.
  split; [exact H|].
  exact (proj1 (@X8_builders_fallback linux_host "dir" 7 H)).
Defined.

Lemma X9_witness :
  @executor.IsWindows linux_host = false
  /\ 7 <> executor.CMDShell
  /\ exec.Path (@executor.GetShellCommand linux_host "dir" 7) <> "cmd".
Proof.
  assert (H : 7 <> executor.CMDShell) by discriminate.
  split; [reflexivity|]. split; [exact H|].
  exact (proj2 (@X9_GetShellCommand_shape linux_host "dir" 7) eq_refl H).
Defined.

Lemma X12_witness :
  executor.Base64Executor.shellType
    (@executor.NewBase64ExecutorWithShell windows_host
       executor.PowerShellShell)
  = executor.PowerShellShell
  /\ executor.Base64Executor.DecodeCommand base64_sh
       (executor.Base64Executor.EncodeCommand
          (@executor.NewBase64ExecutorWithShell windows_host
             executor.PowerShellShell) "dir")
     = (string_of_bytes (spec.utf16le (spec.utf16_units "dir")), None).
Proof.
  split; [reflexivity|].
  exact (proj1 (X12_powershell_round_trip
                  (@executor.NewBase64ExecutorWithShell windows_host
                     executor.PowerShellShell)
                  base64_sh "dir" eq_refl)).
Defined.

Lemma X13_witness :
  parser.ShellType
    (config_of executor.Base64Type executor.AutoShell ["execute"])
  = executor.AutoShell
  /\ spec.executor_type
       (parser.ExecutorType
          (config_of executor.Base64Type executor.AutoShell ["execute"]))
  /\ @executor.CreateExecutor windows_host executor.Base64Type
     = @main.cmdExecutor windows_host
         (config_of executor.Base64Type executor.AutoShell ["execute"]).
Proof.
  assert (H : spec.executor_type
                (parser.ExecutorType
                   (config_of executor.Base64Type executor.AutoShell
                      ["execute"]))) by (left; reflexivity).
  split; [reflexivity|]. split; [exact H|].
  exact (proj2 (@X13_default_constructors windows_host
                  (config_of executor.Base64Type executor.AutoShell
                     ["execute"])) eq_refl H).
Defined.

Lemma X15_witness :
  executor.Base64Executor.shellType base64_auto <> executor.PowerShellShell
  /\ executor.Base64Executor.shellType base64_auto <> executor.ShShell
  /\ "dir" <> EmptyString
  /\ @executor.Base64Executor.ExecuteCommand linux_host base64_auto
       (executor.Base64Executor.EncodeCommand base64_auto "dir") []
     = @executor.PlainExecutor.ExecuteCommand linux_host plain_auto "dir" [].
Proof.
  assert (H1 : executor.Base64Executor.shellType base64_auto
               <> executor.PowerShellShell) by discriminate.
  assert (H2 : executor.Base64Executor.shellType base64_auto
               <> executor.ShShell) by discriminate.
  assert (H3 : "dir" <> EmptyString) by discriminate.
  repeat (split; [assumption|]).
  exact (@X15_execute_encoded_as_plain linux_host base64_auto "dir" []
           H1 H2 H3).
Defined.

Lemma X16_witness :
  ("dir" <> EmptyString
   /\ @executor.ExecuteCommandWithValidation linux_host "dir"
        executor.ShShell []
      = ((None,
          [("Executing command: dir" ++ String "010"%char EmptyString)%string]),
         [attach_streams (exec.Command "sh" ["-c"; "dir"])]))
  /\ @executor.ExecuteCommandWithValidation linux_host EmptyString
       executor.ShShell []
     = ((Some "command cannot be empty", []), []).
Proof.
  assert (H : "dir" <> EmptyString) by discriminate.
  split; [split; [exact H|]|].
  - exact (proj2 (@X16_validated_execution linux_host "dir"
                    executor.ShShell []) H).
  - exact (proj1 (@X16_validated_execution linux_host EmptyString
                    executor.ShShell []) eq_refl).
Defined.

Lemma X17_witness :
  (@executor.IsLinux linux_host = true
   /\ @executor.IsUnix linux_host = true)
  /\ (@executor.IsWindows windows_host = true
      /\ @executor.IsUnix windows_host = false).
Proof.
  split; (split; [reflexivity|]).
  - exact (proj1 (@X17_host_predicates linux_host) eq_refl).
  - exact (proj2 (proj2 (@X17_host_predicates windows_host) eq_refl)).
Defined.

Lemma X18_witness :
  parser.Help (config_of executor.Base64Type executor.CMDShell ["info"])
  = false
  /\ parser.ValidateExecutorShellCompatibility
       (config_of executor.Base64Type executor.CMDShell ["info"]) <> None
  /\ parser.ValidateAction
       (config_of executor.Base64Type executor.CMDShell ["info"])
     = parser.ValidateExecutorShellCompatibility
         (config_of executor.Base64Type executor.CMDShell ["info"]).
Proof.
  assert (H : parser.ValidateExecutorShellCompatibility
                (config_of executor.Base64Type executor.CMDShell ["info"])
              <> None) by discriminate.
  split; [reflexivity|]. split; [exact H|].
  exact (proj2 (proj2 (X18_ValidateAction
                  (config_of executor.Base64Type executor.CMDShell
                     ["info"])) eq_refl) H).
Defined.

Lemma X19_witness :
  flag.help (flags_of "cmd" "base64" true []) = true
  /\ @main.main linux_host ascii_only (flags_of "cmd" "base64" true [])
     = {| main.exit_code := 0; main.printed := [main.Usage];
          main.started := [] |}.
Proof.
  split; [reflexivity|].
  exact (proj1 (@X19_main_help_and_no_action linux_host ascii_only
                  (flags_of "cmd" "base64" true [])) eq_refl).
Defined.

Lemma X20_witness :
  flag.help (flags_of "cmd" "base64" false ["info"]) = false
  /\ flag.Args (flags_of "cmd" "base64" false ["info"]) <> []
  /\ @strings.ToLower ascii_only "cmd" = "cmd"
  /\ @strings.ToLower ascii_only "base64" <> "plain"
  /\ @main.main linux_host ascii_only
       (flags_of "cmd" "base64" false ["info"])
     = {| main.exit_code := 1; main.printed := [main.Usage];
          main.started := [] |}.
Proof.
  assert (H1 : flag.Args (flags_of "cmd" "base64" false ["info"]) <> [])
    by discriminate.
  assert (H2 : @strings.ToLower ascii_only "base64" <> "plain")
    by discriminate.
  split; [reflexivity|]. split; [exact H1|]. split; [reflexivity|].
  split; [exact H2|].
  exact (@X20_main_rejects_base64_cmd linux_host ascii_only
           (flags_of "cmd" "base64" false ["info"]) eq_refl H1 eq_refl H2).
Defined.


Lemma X22_witness :
  flag.help (flags_of "sh" "plain" false ["info"]) = false
  /\ main.exit_code
       (@main.main linux_host ascii_only
          (flags_of "sh" "plain" false ["info"])) = 0
  /\ ~ In main.Usage
         (main.printed
            (@main.main linux_host ascii_only
               (flags_of "sh" "plain" false ["info"]))).
Proof.
  split; [reflexivity|]. split; [reflexivity|].
  exact (@X22_main_usage_means_failure linux_host ascii_only
           (flags_of "sh" "plain" false ["info"]) eq_refl eq_refl).
Defined.

Lemma X23_witness :
  flag.help (flags_of "sh" "base64" false []) = false
  /\ @executor.ParseShellType ascii_only
       (flag.shell (flags_of "sh" "base64" false [])) = executor.ShShell
  /\ exists encoded : string,
       @main.main linux_host ascii_only
         (with_args (flags_of "sh" "base64" false [])
            ["encode"; "echo"; "hi"])
       = {| main.exit_code := 0;
            main.printed :=
              [main.Text ("Base64 encoded command: " ++ encoded
                            ++ String "010"%char EmptyString)%string];
            main.started := [] |}
       /\ @main.main linux_host ascii_only
            (with_args (flags_of "sh" "base64" false [])
               ["decode"; encoded])
          = {| main.exit_code := 0;
               main.printed :=
                 [main.Text ("Decoded command: "
                               ++ String.concat " " ["echo"; "hi"]
                               ++ String "010"%char EmptyString)%string];
               main.started := [] |}.
Proof.
  split; [reflexivity|]. split; [reflexivity|].
  exact (@X23_main_encode_then_decode linux_host ascii_only
           (flags_of "sh" "base64" false []) "echo" ["hi"] eq_refl
           (or_intror (or_introl eq_refl))).
Defined.
